(** * hypo71_to_NLL: conversion of hypo71 phase files to NLLoc phase files

    A shallow embedding of [hypo71_to_NLL.py] and the properties of its
    format validator, pick decoder, event segmenter, NLLoc emitter and
    command-line checks.

    The script is a chain of string operations, number parsing and date
    arithmetic in which every step may raise.  Exceptions are therefore
    explicit: a computation of type [Res A] either returns a value or
    raises one of the exceptions of [exn].  The run-time operations the
    script relies on ([str] methods, [int], [float], [datetime],
    [timedelta]) are modelled in [Module Py]; the script's own functions
    follow, under the names they have in the source. *)

From Stdlib Require Import ZArith List Bool Ascii String Lia.
From Stdlib Require Import Floats.SpecFloat.
Import ListNotations.

Local Open Scope bool_scope.
Local Open Scope string_scope.
Local Open Scope Z_scope.

(** ** Exceptions *)

Inductive exn : Type :=
| IndexError
| ValueError
| OverflowError
| AttributeError
| FileNotFoundError
| PermissionError
| IsADirectoryError
| TypeError (msg : string)
| SystemExit (status : Z) (msg : string).

Inductive Res (A : Type) : Type :=
| Ok (a : A)
| Raise (e : exn).
Arguments Ok {A} a.
Arguments Raise {A} e.

Definition bind {A B : Type} (m : Res A) (k : A -> Res B) : Res B :=
  match m with
  | Ok a => k a
  | Raise e => Raise e
  end.

Notation "x <- m ;; k" := (bind m (fun x => k))
  (at level 61, m at next level, right associativity).
Notation "m ;;; k" := (bind m (fun _ => k))
  (at level 61, right associativity).

(** [try m except e: h] for the one exception class the script catches
    at each of its handlers. *)
Definition is_ValueError (e : exn) : bool :=
  match e with ValueError => true | _ => false end.

Definition is_TypeError (e : exn) : bool :=
  match e with TypeError _ => true | _ => false end.

Definition try_except {A : Type} (m : Res A) (catches : exn -> bool)
    (handler : exn -> Res A) : Res A :=
  match m with
  | Ok a => Ok a
  | Raise e => if catches e then handler e else Raise e
  end.

Module Py.

(** ** Characters and [str] methods

    The input files are opened with [encoding='ascii'], so every character
    the script sees has a code below 128; the classifications below are the
    ASCII ones. *)

Definition code (c : ascii) : Z := Z.of_N (N_of_ascii c).

(** [str.isspace] on ASCII: TAB, LF, VT, FF, CR, FS, GS, RS, US, space. *)
Definition isspace (c : ascii) : bool :=
  let n := code c in
  ((9 <=? n) && (n <=? 13)) || ((28 <=? n) && (n <=? 32)).

(** What [int] and [float] skip around a literal: TAB, LF, VT, FF, CR and
    space only. *)
Definition is_c_space (c : ascii) : bool :=
  let n := code c in
  ((9 <=? n) && (n <=? 13)) || (n =? 32).

(** [str.isdigit] on ASCII. *)
Definition isdigit (c : ascii) : bool :=
  let n := code c in (48 <=? n) && (n <=? 57).

Definition digit_value (c : ascii) : Z := code c - 48.

Definition len (s : string) : Z := Z.of_nat (String.length s).

(** [s[i]] for a character position; a negative [i] counts from the end. *)
Definition getitem (s : string) (i : Z) : Res ascii :=
  let j := if i <? 0 then i + len s else i in
  if j <? 0 then Raise IndexError
  else match String.get (Z.to_nat j) s with
       | Some c => Ok c
       | None => Raise IndexError
       end.

(** [s[a:b]] for [0 <= a <= b]: slicing clamps to the string and never
    raises. *)
Definition slice (s : string) (a b : nat) : string :=
  String.substring a (b - a) s.

Fixpoint lstrip_by (sp : ascii -> bool) (s : string) : string :=
  match s with
  | EmptyString => EmptyString
  | String c s' => if sp c then lstrip_by sp s' else s
  end.

Fixpoint rstrip_by (sp : ascii -> bool) (s : string) : string :=
  match s with
  | EmptyString => EmptyString
  | String c s' =>
      match rstrip_by sp s' with
      | EmptyString => if sp c then EmptyString else String c EmptyString
      | r => String c r
      end
  end.

Definition strip_by (sp : ascii -> bool) (s : string) : string :=
  rstrip_by sp (lstrip_by sp s).

(** [s.strip()] *)
Definition strip (s : string) : string := strip_by isspace s.

(** [s.replace(c, '')] and [s.replace(c, d)] for single characters. *)
Fixpoint remove_char (c : ascii) (s : string) : string :=
  match s with
  | EmptyString => EmptyString
  | String x s' =>
      if Ascii.eqb x c then remove_char c s' else String x (remove_char c s')
  end.

Fixpoint replace_char (c d : ascii) (s : string) : string :=
  match s with
  | EmptyString => EmptyString
  | String x s' =>
      String (if Ascii.eqb x c then d else x) (replace_char c d s')
  end.

(** [s.split(c)]: always at least one field. *)
Fixpoint split_on (c : ascii) (s : string) : list string :=
  match s with
  | EmptyString => [EmptyString]
  | String x s' =>
      match split_on c s' with
      | [] => [EmptyString]
      | f :: fs =>
          if Ascii.eqb x c then EmptyString :: f :: fs
          else String x f :: fs
      end
  end.

(** [s.ljust(w)], which is what the format specification [{s:w}] does to a
    string: the text first, then blanks up to the width. *)
Fixpoint spaces (n : nat) : string :=
  match n with
  | O => EmptyString
  | S n' => String " " (spaces n')
  end.

Definition ljust (w : nat) (s : string) : string :=
  s ++ spaces (w - String.length s).

(** [l[i]] on a list; a negative [i] counts from the end. *)
Definition list_getitem {A : Type} (l : list A) (i : Z) : Res A :=
  let j := if i <? 0 then i + Z.of_nat (List.length l) else i in
  if j <? 0 then Raise IndexError
  else match nth_error l (Z.to_nat j) with
       | Some a => Ok a
       | None => Raise IndexError
       end.

(** Iterating over a text file yields its lines, each with its line
    terminator when it has one.  The text is the file as Python hands it
    over, every line ending already translated to a line feed. *)
Fixpoint lines_from (cur : string) (s : string) : list string :=
  match s with
  | EmptyString =>
      match cur with
      | EmptyString => []
      | _ => [cur]
      end
  | String c s' =>
      if Ascii.eqb c "010"
      then (cur ++ String c EmptyString) :: lines_from EmptyString s'
      else lines_from (cur ++ String c EmptyString) s'
  end.

Definition readlines (text : string) : list string :=
  lines_from EmptyString text.

(** ** [int(s)] for a string

    Blanks around the literal are skipped, one sign is allowed, then decimal
    digits, where single underscores may stand between two digits. *)

Fixpoint digits_value (acc : Z) (s : string) : Z :=
  match s with
  | EmptyString => acc
  | String c s' => digits_value (10 * acc + digit_value c) s'
  end.

Fixpoint all_digits (s : string) : bool :=
  match s with
  | EmptyString => true
  | String c s' => isdigit c && all_digits s'
  end.

(** Removal of the underscores of a numeric literal; [None] when one of
    them does not stand between two digits.  [prev] is the character
    before [s], if any. *)
Fixpoint drop_underscores (prev : option ascii) (s : string)
  : option string :=
  match s with
  | EmptyString =>
      match prev with
      | Some "_"%char => None
      | _ => Some EmptyString
      end
  | String c s' =>
      if Ascii.eqb c "_" then
        match prev with
        | Some p => if isdigit p then drop_underscores (Some c) s' else None
        | None => None
        end
      else
        match prev with
        | Some "_"%char =>
            if isdigit c
            then option_map (String c) (drop_underscores (Some c) s')
            else None
        | _ => option_map (String c) (drop_underscores (Some c) s')
        end
  end.

Definition split_sign (s : string) : bool * string :=
  match s with
  | String "-" s' => (true, s')
  | String "+" s' => (false, s')
  | _ => (false, s)
  end.

Definition int_of_str (s : string) : Res Z :=
  let (neg, body) := split_sign (strip_by is_c_space s) in
  match drop_underscores None body with
  | None => Raise ValueError
  | Some ds =>
      match ds with
      | EmptyString => Raise ValueError
      | _ =>
          if all_digits ds
          then Ok (if neg then - digits_value 0 ds else digits_value 0 ds)
          else Raise ValueError
      end
  end.

(** ** [float]: IEEE 754 binary64

    Floats are the binary64 numbers of the standard library's
    specification of floating-point arithmetic: a finite float is a sign, a
    mantissa and a binary exponent, and every operation rounds to nearest,
    ties to even. *)

Definition prec : Z := 53.
Definition emax : Z := 1024.

Definition float : Type := spec_float.

(** The float nearest to [num / den], for [0 <= num] and [0 < den]. *)
Definition float_of_ratio (neg : bool) (num den : Z) : float :=
  match num with
  | Z0 => S754_zero neg
  | _ =>
      let '(q, e, l) := SFdiv_core_binary prec emax num 0 den 0 in
      binary_round_aux prec emax neg q e l
  end.

(** The float nearest to [m * 10 ^ e], for [0 <= m]. *)
Definition float_of_decimal (neg : bool) (m e : Z) : float :=
  if 0 <=? e then float_of_ratio neg (m * 10 ^ e) 1
  else float_of_ratio neg m (10 ^ (- e)).

(** Conversion of an [int] operand of a float operation. *)
Definition float_of_Z (n : Z) : float := binary_normalize prec emax n 0 false.

Definition float_mul (x y : float) : float := SFmul prec emax x y.

(** The longest prefix of digits, and what follows it. *)
Fixpoint span_digits (s : string) : string * string :=
  match s with
  | EmptyString => (EmptyString, EmptyString)
  | String c s' =>
      if isdigit c
      then let (ds, rest) := span_digits s' in (String c ds, rest)
      else (EmptyString, s)
  end.

(** The exponent part of a decimal literal: nothing, or [e] or [E], an
    optional sign and at least one digit, up to the end of the literal. *)
Definition parse_exponent (s : string) : option Z :=
  match s with
  | EmptyString => Some 0
  | String c s' =>
      if Ascii.eqb c "e" || Ascii.eqb c "E" then
        let (neg, body) := split_sign s' in
        match body with
        | EmptyString => None
        | _ =>
            if all_digits body
            then Some (if neg then - digits_value 0 body
                       else digits_value 0 body)
            else None
        end
      else None
  end.

(** A decimal literal without sign: digits with an optional point, at
    least one digit in all, and an optional exponent.  The result [(m, e)]
    stands for [m * 10 ^ e]. *)
Definition parse_decimal (s : string) : option (Z * Z) :=
  let (ip, rest) := span_digits s in
  let (fp, rest') :=
    match rest with
    | String "." r => span_digits r
    | _ => (EmptyString, rest)
    end in
  match ip ++ fp with
  | EmptyString => None
  | ds =>
      match parse_exponent rest' with
      | Some x => Some (digits_value 0 ds, x - Z.of_nat (String.length fp))
      | None => None
      end
  end.

Definition lower_char (c : ascii) : ascii :=
  let n := code c in
  if (65 <=? n) && (n <=? 90) then ascii_of_N (Z.to_N (n + 32)) else c.

Fixpoint lower (s : string) : string :=
  match s with
  | EmptyString => EmptyString
  | String c s' => String (lower_char c) (lower s')
  end.

(** [float(s)] for a string. *)
Definition float_of_str (s : string) : Res float :=
  match drop_underscores None (strip_by is_c_space s) with
  | None => Raise ValueError
  | Some u =>
      let (neg, body) := split_sign u in
      match parse_decimal body with
      | Some (m, e) => Ok (float_of_decimal neg m e)
      | None =>
          let w := lower body in
          if String.eqb w "inf" || String.eqb w "infinity"
          then Ok (S754_infinity neg)
          else if String.eqb w "nan" then Ok S754_nan
          else Raise ValueError
      end
  end.

(** A finite float as an integer part and a fraction [num / 2 ^ k] of the
    same sign, [|num| < 2 ^ k]: what the C function [modf] computes,
    exactly. *)
Definition modf (x : float) : Z * (Z * Z) :=
  match x with
  | S754_finite s m e =>
      let sg := fun z : Z => if s then - z else z in
      if 0 <=? e then (sg (Zpos m * 2 ^ e), (0, 0))
      else (sg (Zpos m / 2 ^ (- e)), (sg (Zpos m mod 2 ^ (- e)), - e))
  | _ => (0, (0, 0))
  end.

(** [int(x)] for a float: truncation towards zero. *)
Definition int_of_float (x : float) : Res Z :=
  match x with
  | S754_nan => Raise ValueError
  | S754_infinity _ => Raise OverflowError
  | _ => Ok (fst (modf x))
  end.

(** ** [timedelta]

    A duration is a whole number of microseconds; the constructor refuses
    more than 999999999 days either way. *)

Definition US_PER_SECOND : Z := 1000000.
Definition US_PER_MINUTE : Z := 60 * US_PER_SECOND.
Definition US_PER_HOUR : Z := 60 * US_PER_MINUTE.
Definition US_PER_DAY : Z := 24 * US_PER_HOUR.

Definition check_delta (us : Z) : Res Z :=
  let days := us / US_PER_DAY in
  if (-999999999 <=? days) && (days <=? 999999999) then Ok us
  else Raise OverflowError.

(** [timedelta(hours=h, minutes=m, milliseconds=ms)] for integers. *)
Definition timedelta_hmms (h m ms : Z) : Res Z :=
  check_delta (h * US_PER_HOUR + m * US_PER_MINUTE + ms * 1000).

(** Rounding of the left-over fraction [num / 2 ^ k] of a microsecond to
    -1, 0 or 1, to nearest; a tie goes to the side that makes the total
    [x] even. *)
Definition round_leftover (x num k : Z) : Z :=
  match Z.compare (2 * Z.abs num) (2 ^ k) with
  | Lt => 0
  | Gt => Z.sgn num
  | Eq => if Z.odd x then Z.sgn num else 0
  end.

(** [timedelta(seconds=x)] for a float: the whole seconds are exact, the
    fraction is scaled by a float multiplication and rounded to a whole
    microsecond. *)
Definition timedelta_seconds (x : float) : Res Z :=
  match x with
  | S754_nan => Raise ValueError
  | S754_infinity _ => Raise OverflowError
  | _ =>
      let '(ip, (num, k)) := modf x in
      let sum := ip * US_PER_SECOND in
      if num =? 0 then check_delta sum
      else
        let frac := binary_normalize prec emax num (- k) false in
        let '(ip2, (num2, k2)) :=
          modf (float_mul (float_of_Z US_PER_SECOND) frac) in
        let x := sum + ip2 in
        check_delta (x + round_leftover x num2 k2)
  end.

(** ** [datetime]

    A naive [datetime] is the number of microseconds since the midnight that
    begins day 0 of the proleptic Gregorian ordinal, in which 1 January of
    year 1 is day 1 and 31 December 9999 day 3652059.  Its calendar fields
    are read off that number. *)

Record datetime : Type := mk_datetime { micros : Z }.

Definition MAXORDINAL : Z := 3652059.

Definition is_leap (year : Z) : bool :=
  (year mod 4 =? 0) && (negb (year mod 100 =? 0) || (year mod 400 =? 0)).

Definition DAYS_IN_MONTH : list Z :=
  [-1; 31; 28; 31; 30; 31; 30; 31; 31; 30; 31; 30; 31].

Definition DAYS_BEFORE_MONTH : list Z :=
  [-1; 0; 31; 59; 90; 120; 151; 181; 212; 243; 273; 304; 334].

Definition days_before_year (year : Z) : Z :=
  let y := year - 1 in y * 365 + y / 4 - y / 100 + y / 400.

Definition days_in_month (year month : Z) : Z :=
  if (month =? 2) && is_leap year then 29
  else nth (Z.to_nat month) DAYS_IN_MONTH 0.

Definition days_before_month (year month : Z) : Z :=
  nth (Z.to_nat month) DAYS_BEFORE_MONTH 0
  + (if (2 <? month) && is_leap year then 1 else 0).

Definition ymd2ord (year month day : Z) : Z :=
  days_before_year year + days_before_month year month + day.

Definition DI400Y : Z := 146097.
Definition DI100Y : Z := 36524.
Definition DI4Y : Z := 1461.

Definition ord2ymd (ordinal : Z) : Z * Z * Z :=
  let n := ordinal - 1 in
  let n400 := n / DI400Y in
  let n := n mod DI400Y in
  let n100 := n / DI100Y in
  let n := n mod DI100Y in
  let n4 := n / DI4Y in
  let n := n mod DI4Y in
  let n1 := n / 365 in
  let n := n mod 365 in
  let year := n400 * 400 + 1 + n100 * 100 + n4 * 4 + n1 in
  if (n1 =? 4) || (n100 =? 4) then (year - 1, 12, 31)
  else
    let leapyear := (n1 =? 3) && (negb (n4 =? 24) || (n100 =? 3)) in
    let month := Z.shiftr (n + 50) 5 in
    let preceding :=
      nth (Z.to_nat month) DAYS_BEFORE_MONTH 0
      + (if (2 <? month) && leapyear then 1 else 0) in
    if n <? preceding then
      let month := month - 1 in
      let preceding :=
        preceding
        - (nth (Z.to_nat month) DAYS_IN_MONTH 0
           + (if (month =? 2) && leapyear then 1 else 0)) in
      (year, month, n - preceding + 1)
    else (year, month, n - preceding + 1).

Definition toordinal (t : datetime) : Z := micros t / US_PER_DAY.
Definition year (t : datetime) : Z := fst (fst (ord2ymd (toordinal t))).
Definition month (t : datetime) : Z := snd (fst (ord2ymd (toordinal t))).
Definition day (t : datetime) : Z := snd (ord2ymd (toordinal t)).
Definition hour (t : datetime) : Z := (micros t / US_PER_HOUR) mod 24.
Definition minute (t : datetime) : Z := (micros t / US_PER_MINUTE) mod 60.
Definition second (t : datetime) : Z := (micros t / US_PER_SECOND) mod 60.
Definition microsecond (t : datetime) : Z := micros t mod US_PER_SECOND.

(** A [datetime] exists for the years 1 to 9999 only. *)
Definition in_range (t : datetime) : bool :=
  (1 <=? toordinal t) && (toordinal t <=? MAXORDINAL).

(** [t + d] for a duration [d]. *)
Definition datetime_add (t : datetime) (d : Z) : Res datetime :=
  let r := mk_datetime (micros t + d) in
  if in_range r then Ok r else Raise OverflowError.

(** [t.replace(second=0, microsecond=0)] *)
Definition replace_second_0 (t : datetime) : datetime :=
  mk_datetime (micros t - micros t mod US_PER_MINUTE).

(** [datetime.strptime(s, '%y%m%d')].  The format is the regular
    expression [(\d\d)(1[0-2]|0[1-9]|[1-9])(3[01]|[12]\d|0[1-9]|[1-9]| [1-9])];
    each function below lists, in the order the matcher tries them, the ways
    its group can match a prefix of the text, with the text left over. *)

Definition in_chars (lo hi : ascii) (c : ascii) : bool :=
  (code lo <=? code c) && (code c <=? code hi).

Definition re_y (s : string) : list (string * string) :=
  match s with
  | String a (String b r) =>
      if isdigit a && isdigit b then [(String a (String b ""), r)] else []
  | _ => []
  end.

(** One alternative made of two character classes, or of one. *)
Definition alt2 (p q : ascii -> bool) (s : string)
  : list (string * string) :=
  match s with
  | String a (String b r) =>
      if p a && q b then [(String a (String b ""), r)] else []
  | _ => []
  end.

Definition alt1 (p : ascii -> bool) (s : string) : list (string * string) :=
  match s with
  | String a r => if p a then [(String a "", r)] else []
  | _ => []
  end.

Definition re_m (s : string) : list (string * string) :=
  (alt2 (Ascii.eqb "1") (in_chars "0" "2") s
   ++ alt2 (Ascii.eqb "0") (in_chars "1" "9") s
   ++ alt1 (in_chars "1" "9") s)%list.

Definition re_d (s : string) : list (string * string) :=
  (alt2 (Ascii.eqb "3") (in_chars "0" "1") s
   ++ alt2 (in_chars "1" "2") isdigit s
   ++ alt2 (Ascii.eqb "0") (in_chars "1" "9") s
   ++ alt1 (in_chars "1" "9") s
   ++ alt2 (Ascii.eqb " ") (in_chars "1" "9") s)%list.

Definition re_ymd (s : string) : list (string * string * string * string) :=
  flat_map (fun '(y, r1) =>
    flat_map (fun '(m, r2) =>
      map (fun '(d, r3) => (y, m, d, r3)) (re_d r2)) (re_m r1)) (re_y s).

Definition strptime_ymd (s : string) : Res datetime :=
  match re_ymd s with
  | [] => Raise ValueError
  | (y, m, d, rest) :: _ =>
      match rest with
      | EmptyString =>
          yy <- int_of_str y ;;
          mm <- int_of_str m ;;
          dd <- int_of_str d ;;
          let year := if yy <=? 68 then 2000 + yy else 1900 + yy in
          if dd <=? days_in_month year mm
          then Ok (mk_datetime (ymd2ord year mm dd * US_PER_DAY))
          else Raise ValueError
      | _ => Raise ValueError
      end
  end.

(** Decimal rendering: [dec_fixed w n] is the [w] low-order digits of [n],
    [decimal n] all the digits of [n >= 0], and [zfill w n] what the C
    conversion [%0wd] prints. *)
Definition digit_char (d : Z) : ascii := ascii_of_N (Z.to_N (48 + d)).

Fixpoint dec_fixed (w : nat) (n : Z) : string :=
  match w with
  | O => EmptyString
  | S w' => dec_fixed w' (n / 10) ++ String (digit_char (n mod 10)) ""
  end.

Fixpoint dec_width (fuel : nat) (n : Z) : nat :=
  match fuel with
  | O => 1%nat
  | S f => if n <? 10 then 1%nat else S (dec_width f (n / 10))
  end.

Definition decimal (n : Z) : string :=
  dec_fixed (dec_width (Z.to_nat (Z.log2 n)) n) n.

Definition zfill (w : nat) (n : Z) : string :=
  dec_fixed (Nat.max w (dec_width (Z.to_nat (Z.log2 n)) n)) n.

(** [t.strftime('%Y%m%d %H%M %S.%f')].  The year is printed as the C
    library prints it, without padding; from the year 1000 on that is four
    digits on every platform. *)
Definition strftime (t : datetime) : string :=
  (decimal (year t) ++ zfill 2 (month t) ++ zfill 2 (day t) ++ " "
   ++ zfill 2 (hour t) ++ zfill 2 (minute t) ++ " "
   ++ zfill 2 (second t) ++ "." ++ zfill 6 (microsecond t))%string.

End Py.

Import Py.

(** ** The script *)

(** [s in l] for a list of strings. *)
Definition str_in (s : string) (l : list string) : bool :=
  existsb (String.eqb s) l.

Definition newline : ascii := "010"%char.

(** The file system of a run: the files the script can read, by name,
    each with its text, and what opening a name for writing does: the file
    is created or emptied, or the call raises what the operating system
    reports ([FileNotFoundError] for a missing directory,
    [PermissionError], [IsADirectoryError]).  A file system applied to a
    name is the file of that name. *)
Record FileSystem : Type := mk_FileSystem {
  files :> string -> option string;
  create : string -> Res unit
}.

Definition open (fs : FileSystem) (name : string) : Res string :=
  match fs name with
  | Some text => Ok text
  | None => Raise FileNotFoundError
  end.

(** *** class [Pick] *)

Record Pick : Type := mk_Pick {
  station : string;
  flag : string;
  phase : string;
  polarity : string;
  quality : Z;
  error : float;
  time : option datetime   (* [None] until the decoder sets it *)
}.

Section Emitter.

(** [str(x)] for a float, as the f-string prints the error value. *)
Variable float_repr : float -> string.

(** [Pick.to_nlloc] *)
Definition to_nlloc (self : Pick) : Res string :=
  match time self with
  | None => Raise AttributeError
  | Some t =>
      let timestr := strftime t in
      Ok (ljust 6 (station self) ++ " ? ? ? " ++ phase self ++ " "
          ++ timestr ++ " " ++ "GAU " ++ float_repr (error self)
          ++ " 1.0 1.0 1.0")%string
  end.

End Emitter.

(** *** [_is_hypo71_picks] *)

(** The test of lines 73 to 75; [and] evaluates its operands from the left
    and stops at the first false one. *)
Definition validator_test (line : string) : Res bool :=
  c5 <- getitem line 5 ;;
  if Ascii.eqb c5 "P" || Ascii.eqb c5 " " then
    c9 <- getitem line 9 ;;
    if isdigit c9 then
      c20 <- getitem line 20 ;;
      Ok (isdigit c20)
    else Ok false
  else Ok false.

Fixpoint _is_hypo71_picks_loop (pick_file : string) (fp : list string)
  : Res unit :=
  match fp with
  | [] => Ok tt
  | line :: fp' =>
      let line := remove_char newline line in
      let stripped_line := strip line in
      if str_in stripped_line ["10"; ""]
      then _is_hypo71_picks_loop pick_file fp'
      else
        ok <- validator_test line ;;
        if negb ok
        then Raise (TypeError (pick_file ++ ": Not a hypo71 phase file"))
        else _is_hypo71_picks_loop pick_file fp'
  end.

Definition _is_hypo71_picks (fs : FileSystem) (pick_file : string)
  : Res unit :=
  text <- open fs pick_file ;;
  _is_hypo71_picks_loop pick_file (readlines text).

(** *** [_parse_hypo71_pick_line] *)

(** The test of lines 98 to 100. *)
Definition decoder_test (line : string) : Res bool :=
  c5 <- getitem line 5 ;;
  if Ascii.eqb c5 "P" || Ascii.eqb c5 " " then
    c9 <- getitem line 9 ;;
    if isdigit c9 then
      c20 <- getitem line 20 ;;
      Ok (isdigit c20)
    else Ok false
  else Ok false.

(** Lines 107 to 112, and 139 to 144 for the second pick. *)
Definition read_quality (field : string) : Res Z :=
  try_except (int_of_str field) is_ValueError (fun _ => Ok 4).

(** Lines 116 to 123: the time of the first pick from the time string. *)
Definition primary_time (timestr : string) : Res datetime :=
  let datestr := slice timestr 0 6 in
  hour <- int_of_str (slice timestr 6 8) ;;
  minute <- int_of_str (slice timestr 8 10) ;;
  seconds <- float_of_str (slice timestr 10 15) ;;
  milliseconds <- int_of_float (float_mul seconds (float_of_Z 1000)) ;;
  t <- strptime_ymd datestr ;;
  d <- timedelta_hmms hour minute milliseconds ;;
  datetime_add t d.

(** Lines 150 to 153: the time of the second pick. *)
Definition second_time (t : datetime) (stime : string) : Res datetime :=
  let t2 := replace_second_0 t in
  x <- float_of_str stime ;;
  d <- timedelta_seconds x ;;
  datetime_add t2 d.

(** The function returns [None] where the source has a bare [return]. *)
Definition _parse_hypo71_pick_line (line : string) (errors : list float)
  : Res (option (list Pick)) :=
  let picks : list Pick := [] in
  let line := remove_char newline line in
  let stripped_line := strip line in
  if str_in stripped_line ["10"; ""] then Ok None
  else
    ok <- decoder_test line ;;
    if negb ok then Ok None
    else
      let station := strip (slice line 0 4) in
      let flag := slice line 4 5 in
      let phase := slice line 5 6 in
      let polarity := slice line 6 7 in
      quality <- read_quality (slice line 7 8) ;;
      error <- list_getitem errors quality ;;
      let timestr := replace_char " " "0" (slice line 9 24) in
      t <- primary_time timestr ;;
      let pick := mk_Pick station flag phase polarity quality error (Some t) in
      let picks := if String.eqb phase "P" then (picks ++ [pick])%list else picks in
      (* the [try] of lines 128 to 131 guards a slice, which cannot raise *)
      match (Ok (slice line 31 36) : Res string) with
      | Raise ValueError => Ok (Some picks)
      | Raise e => Raise e
      | Ok stime =>
          if String.eqb (strip stime) "" then Ok (Some picks)
          else
            let flag2 := slice line 36 37 in
            let phase2 := slice line 37 38 in
            let polarity2 := slice line 38 39 in
            quality2 <- read_quality (slice line 39 40) ;;
            error2 <- list_getitem errors quality2 ;;
            t2 <- second_time t stime ;;
            let pick2 :=
              mk_Pick station flag2 phase2 polarity2 quality2 error2
                (Some t2) in
            Ok (Some (picks ++ [pick2])%list)
      end.

(** *** [parse_hypo71_picks] *)

Fixpoint parse_hypo71_picks_loop (errors : list float) (fp : list string)
    (all_picks : list (list Pick)) (picks : list Pick)
  : Res (list (list Pick)) :=
  match fp with
  | [] => Ok all_picks
  | line :: fp' =>
      let '(all_picks, picks) :=
        if str_in (strip line) ["10"] then ((all_picks ++ [picks])%list, [])
        else (all_picks, picks) in
      _picks <- _parse_hypo71_pick_line line errors ;;
      let picks :=
        match _picks with
        | Some (p :: ps) => (picks ++ p :: ps)%list
        | _ => picks
        end in
      parse_hypo71_picks_loop errors fp' all_picks picks
  end.

(** [sys.exit(err)] prints the message of [err] and ends the run with
    status 1. *)
Definition sys_exit (err : exn) : exn :=
  match err with
  | TypeError msg => SystemExit 1 msg
  | _ => SystemExit 1 ""
  end.

Definition parse_hypo71_picks (fs : FileSystem) (pick_file : string)
    (errors : list float) : Res (list (list Pick)) :=
  try_except (_is_hypo71_picks fs pick_file) is_TypeError
    (fun err => Raise (sys_exit err)) ;;;
  text <- open fs pick_file ;;
  parse_hypo71_picks_loop errors (readlines text) [] [].

(** *** [parse_args]

    The command line after [argparse] has split it: the two positional
    arguments and the text of [--errors]. *)

Record Args : Type := mk_Args {
  pick_file : string;
  output_file : option string;
  errors_option : string
}.

Definition default_errors_option : string := "0.01,0.02,0.03,0.04,0.05".

(** [parser.error(msg)] ends the run with status 2. *)
Definition parser_error (msg : string) : exn := SystemExit 2 msg.

(** [[float(fields[i]) for i in range(5)]] *)
Fixpoint floats_at (fields : list string) (indices : list Z)
  : Res (list float) :=
  match indices with
  | [] => Ok []
  | i :: rest =>
      f <- list_getitem fields i ;;
      x <- float_of_str f ;;
      xs <- floats_at fields rest ;;
      Ok (x :: xs)
  end.

Definition parse_errors (option : string) : Res (list float) :=
  let fields := split_on "," option in
  match floats_at fields [0; 1; 2; 3; 4] with
  | Ok errors => Ok errors
  | Raise IndexError =>
      Raise (parser_error "You must specify 5 values for --errors")
  | Raise ValueError => Raise (parser_error "Invalid values for --errors")
  | Raise e => Raise e
  end.

Definition parse_args (argv : Args) : Res (string * option string * list float) :=
  errors <- parse_errors (errors_option argv) ;;
  Ok (pick_file argv, output_file argv, errors).

(** *** [run] *)

(** What a run leaves behind: the text written to the output file (or to
    standard output when none is named), the confirmation printed at the
    end, and how the run ended. *)
Record Outcome : Type := mk_Outcome {
  output : string;
  confirmation : string;
  status : Res unit
}.

Section Run.

Variable float_repr : float -> string.

Definition nl : string := String newline EmptyString.

Fixpoint write_picks (out : string) (picks : list Pick) : string * Res unit :=
  match picks with
  | [] => (out, Ok tt)
  | pick :: rest =>
      match to_nlloc float_repr pick with
      | Ok text => write_picks (out ++ text ++ nl) rest
      | Raise e => (out, Raise e)
      end
  end.

Fixpoint write_events (out : string) (all_picks : list (list Pick))
  : string * Res unit :=
  match all_picks with
  | [] => (out, Ok tt)
  | picks :: rest =>
      match write_picks out picks with
      | (out', Ok _) => write_events (out' ++ nl ++ nl) rest
      | (out', Raise e) => (out', Raise e)
      end
  end.

(** Lines 220 to 223: the output file is opened for writing when one is
    named (an empty name counts as none); standard output needs no
    opening. *)
Definition open_output (fs : FileSystem) (output_file : option string)
  : Res unit :=
  match output_file with
  | Some name => if String.eqb name "" then Ok tt else create fs name
  | None => Ok tt
  end.

Definition run (fs : FileSystem) (argv : Args) : Outcome :=
  match parse_args argv with
  | Raise e => mk_Outcome "" "" (Raise e)
  | Ok (pick_file, output_file, errors) =>
      match parse_hypo71_picks fs pick_file errors with
      | Raise e => mk_Outcome "" "" (Raise e)
      | Ok all_picks =>
          match open_output fs output_file with
          | Raise e => mk_Outcome "" "" (Raise e)
          | Ok _ =>
              match write_events "" all_picks with
              | (out, Raise e) => mk_Outcome out "" (Raise e)
              | (out, Ok _) =>
                  mk_Outcome out
                    match output_file with
                    | Some name =>
                        if String.eqb name "" then ""
                        else "Output written to " ++ name ++ nl
                    | None => ""
                    end
                    (Ok tt)
              end
          end
      end
  end.

End Run.

(** ** Vocabulary of the properties *)

(** The line as both the validator and the decoder look at it. *)
Definition chomp (line : string) : string := remove_char newline line.

(** The line is blank or a separator: both functions pass over it. *)
Definition skipped (line : string) : bool :=
  str_in (strip (chomp line)) ["10"; ""].

(** The decoder leaves through the [return] of line 101, its own check of
    the three positions having failed. *)
Definition returns_at_line_101 (line : string) : Prop :=
  skipped line = false /\ decoder_test (chomp line) = Ok false.

(** The signature of a pick line, in the words of the comments of lines 71
    and 72: the text has [P] or a blank at position 5 and a digit at each
    of the positions 9 and 20. *)
Definition has_pick_signature (s : string) : Prop :=
  (String.get 5 s = Some "P"%char \/ String.get 5 s = Some " "%char)
  /\ (exists c, String.get 9 s = Some c /\ isdigit c = true)
  /\ (exists c, String.get 20 s = Some c /\ isdigit c = true).

(** The segmenter's own test for a separator line (line 175). *)
Definition is_separator (line : string) : bool :=
  str_in (strip line) ["10"].

(** The quality read from a field selects an entry of a table of five. *)
Definition quality_in_table (field : string) : bool :=
  match read_quality field with
  | Ok q => (0 <=? q) && (q <=? 4)
  | Raise _ => false
  end.

(** The picks a call of the decoder hands back, none when it returns
    [None]. *)
Definition picks_of (r : option (list Pick)) : list Pick :=
  match r with
  | Some ps => ps
  | None => []
  end.

Definition decoded (errors : list float) (line : string) : list Pick :=
  match _parse_hypo71_pick_line line errors with
  | Ok r => picks_of r
  | Raise _ => []
  end.

(** The lines of a file grouped by the separators that close them: one
    group for each separator line, holding the lines since the separator
    before it; what follows the last separator belongs to no group. *)
Fixpoint line_groups (cur : list string) (fp : list string)
  : list (list string) :=
  match fp with
  | [] => []
  | line :: fp' =>
      if is_separator line then cur :: line_groups [] fp'
      else line_groups (cur ++ [line])%list fp'
  end.

Definition count_separators (fp : list string) : nat :=
  List.length (filter is_separator fp).

(** The time string of a pick line (line 114), and its second-pick
    seconds field (line 129). *)
Definition time_string (line : string) : string :=
  replace_char " " "0" (slice (chomp line) 9 24).

Definition stime_field (line : string) : string := slice (chomp line) 31 36.

(** [n] is the float [x] cut off at the point: of the sign of [x], and
    [|n| <= |x| < |n| + 1] in exact arithmetic. *)
Definition truncates (x : float) (n : Z) : Prop :=
  match x with
  | S754_zero _ => n = 0
  | S754_finite s m e =>
      (if s then n <= 0 else 0 <= n)
      /\ (if 0 <=? e then Z.abs n = Zpos m * 2 ^ e
          else Z.abs n * 2 ^ (- e) <= Zpos m < (Z.abs n + 1) * 2 ^ (- e))
  | _ => False
  end.

(** The station field as the specification words it, "left-padded to
    width 6": the blanks first, the text after them. *)
Definition left_padded (w : nat) (s : string) : string :=
  (spaces (w - String.length s) ++ s)%string.

(** The time stamp [YYYYMMDD HHMM SS.ffffff]: digits of the given widths
    that read back as the fields of [t]. *)
Definition field_of (w : nat) (n : Z) (s : string) : Prop :=
  String.length s = w /\ all_digits s = true /\ digits_value 0 s = n.

Definition is_time_stamp (t : datetime) (s : string) : Prop :=
  exists Y M D h m sec f : string,
    s = (Y ++ M ++ D ++ " " ++ h ++ m ++ " " ++ sec ++ "." ++ f)%string
    /\ field_of 4 (year t) Y /\ field_of 2 (month t) M
    /\ field_of 2 (day t) D /\ field_of 2 (hour t) h
    /\ field_of 2 (minute t) m /\ field_of 2 (second t) sec
    /\ field_of 6 (microsecond t) f.

(** The default table of errors, as [parse_args] builds it. *)
Definition default_errors : list float :=
  match parse_errors default_errors_option with
  | Ok errors => errors
  | Raise _ => []
  end.

(** A file system with a single file, in which every name can be opened
    for writing; and the same in which none can, every attempt raising
    [e]. *)
Definition single_file (name text : string) : FileSystem :=
  mk_FileSystem (fun n => if String.eqb n name then Some text else None)
    (fun _ => Ok tt).




(** A pick line whose fields the decoder can use: the quality selects an
    entry of the table and the time string yields a time; when a second
    pick is present, the same for its quality and its seconds. *)
Definition decodable (line : string) : Prop :=
  quality_in_table (slice (chomp line) 7 8) = true
  /\ exists t, primary_time (time_string line) = Ok t
       /\ (strip (stime_field line) = ""
           \/ (quality_in_table (slice (chomp line) 39 40) = true
               /\ exists t2, second_time t (stime_field line) = Ok t2)).

(** The first pick of a pick line, and the second. *)
Definition first_pick (line : string) (q : Z) (e : float) (t : datetime) : Pick :=
  mk_Pick (strip (slice (chomp line) 0 4)) (slice (chomp line) 4 5)
    (slice (chomp line) 5 6) (slice (chomp line) 6 7) q e (Some t).

Definition second_pick (line : string) (q : Z) (e : float) (t : datetime) : Pick :=
  mk_Pick (strip (slice (chomp line) 0 4)) (slice (chomp line) 36 37)
    (slice (chomp line) 37 38) (slice (chomp line) 38 39) q e (Some t).

Definition kept_first (line : string) (p : Pick) : list Pick :=
  if String.eqb (slice (chomp line) 5 6) "P" then [p] else [].


(** The outcome of a call as an option: the picks when it returns a list. *)
Definition picks_of_res (r : Res (option (list Pick)))
  : option (list Pick) :=
  match r with
  | Ok (Some ps) => Some ps
  | _ => None
  end.

(** The events of a file, in the words of the specification: one event for
    each separator line, made of the picks of the lines of its group, in
    the order of the lines. *)
Definition events_by_separator (errors : list float) (fp : list string)
  : list (list Pick) :=
  map (flat_map (decoded errors)) (line_groups [] fp).

(** [c] occurs in [s]. *)
Fixpoint has_char (c : ascii) (s : string) : bool :=
  match s with
  | EmptyString => false
  | String x s' => Ascii.eqb x c || has_char c s'
  end.

(** The exceptions that come out of the decoder. *)
Definition decoder_exception (e : exn) : Prop :=
  e = IndexError \/ e = ValueError \/ e = OverflowError.


Definition nlloc_text (float_repr : float -> string) (p : Pick) : string :=
  match to_nlloc float_repr p with
  | Ok text => text
  | Raise _ => EmptyString
  end.





(* ================================================================== *)
(** * Properties *)

(** ** Exceptions and results *)

Lemma bind_Ok_inv {A B : Type} (m : Res A) (k : A -> Res B) (b : B) :
  bind m k = Ok b -> exists a, m = Ok a /\ k a = Ok b.
Proof.
  destruct m as [a|e]; simpl; intros H.
  - exists a; split; [reflexivity | exact H].
  - discriminate H.
Qed.

Lemma bind_Raise_inv {A B : Type} (m : Res A) (k : A -> Res B) (e : exn) :
  bind m k = Raise e ->
  m = Raise e \/ exists a, m = Ok a /\ k a = Raise e.
Proof.
  destruct m as [a|e']; simpl; intros H.
  - right; exists a; split; [reflexivity | exact H].
  - left; congruence.
Qed.

(** [int] raises nothing but [ValueError]. *)
Lemma int_of_str_raises_ValueError (s : string) (e : exn) :
  int_of_str s = Raise e -> e = ValueError.
Proof.
  unfold int_of_str.
  destruct (split_sign (strip_by is_c_space s)) as [neg body].
  destruct (drop_underscores None body) as [ds|]; [|congruence].
  destruct ds as [|c ds]; [congruence|].
  destruct (all_digits (String c ds)); congruence.
Qed.

(** The quality of a pick is always read: what [int] refuses becomes 4. *)
Lemma read_quality_total (field : string) :
  exists q, read_quality field = Ok q.
Proof.
  unfold read_quality, try_except.
  destruct (int_of_str field) as [q|e] eqn:E.
  - exists q; reflexivity.
  - apply int_of_str_raises_ValueError in E; subst e; simpl.
    exists 4; reflexivity.
Qed.

Lemma read_quality_fallback (field : string) (e : exn) :
  int_of_str field = Raise e -> read_quality field = Ok 4.
Proof.
  intros E. unfold read_quality, try_except. rewrite E.
  apply int_of_str_raises_ValueError in E; subst e; reflexivity.
Qed.

(** [float] raises nothing but [ValueError]. *)
Lemma float_of_str_raises_ValueError (s : string) (e : exn) :
  float_of_str s = Raise e -> e = ValueError.
Proof.
  unfold float_of_str.
  destruct (drop_underscores None (strip_by is_c_space s)) as [u|];
    [|congruence].
  destruct (split_sign u) as [neg body].
  destruct (parse_decimal body) as [[m x]|]; [congruence|].
  destruct (String.eqb (lower body) "inf" || String.eqb (lower body) "infinity");
    [congruence|].
  destruct (String.eqb (lower body) "nan"); congruence.
Qed.

(** ** The validator and the decoder's entry *)

(** The two copies of the three-position test are one predicate. *)
Lemma validator_test_decoder_test (line : string) :
  validator_test line = decoder_test line.
Proof. reflexivity. Qed.

(** One turn of the validator's loop. *)
Lemma _is_hypo71_picks_loop_cons (pick_file line : string)
    (fp : list string) :
  _is_hypo71_picks_loop pick_file (line :: fp) =
  if skipped line then _is_hypo71_picks_loop pick_file fp
  else
    ok <- validator_test (chomp line) ;;
    if negb ok
    then Raise (TypeError (pick_file ++ ": Not a hypo71 phase file"))
    else _is_hypo71_picks_loop pick_file fp.
Proof. reflexivity. Qed.

(** A file the validator lets through has, on every line that is not
    passed over, the three positions and the expected characters there. *)
Lemma validated_lines_pass (pick_file : string) (fp : list string) :
  _is_hypo71_picks_loop pick_file fp = Ok tt ->
  forall line, In line fp ->
    skipped line = true \/ validator_test (chomp line) = Ok true.
Proof.
  induction fp as [|l fp IH]; intros Hloop line Hin.
  - contradiction.
  - rewrite _is_hypo71_picks_loop_cons in Hloop.
    destruct (skipped l) eqn:Hskip.
    + destruct Hin as [<-|Hin]; [left; exact Hskip | exact (IH Hloop line Hin)].
    + apply bind_Ok_inv in Hloop. destruct Hloop as (ok & Htest & Hrest).
      destruct ok; simpl in Hrest; [|discriminate Hrest].
      destruct Hin as [<-|Hin]; [right; exact Htest | exact (IH Hrest line Hin)].
Qed.

(** The decoder returns [None] at line 101 exactly when its test fails. *)
Lemma returns_at_line_101_None (line : string) (errors : list float) :
  returns_at_line_101 line -> _parse_hypo71_pick_line line errors = Ok None.
Proof.
  intros [Hskip Htest]. unfold _parse_hypo71_pick_line.
  fold (chomp line). fold (skipped line). rewrite Hskip, Htest. reflexivity.
Qed.

(** A position that is not negative is read from the start of the text. *)
Lemma getitem_nat (s : string) (n : nat) :
  getitem s (Z.of_nat n)
  = match String.get n s with
    | Some c => Ok c
    | None => Raise IndexError
    end.
Proof.
  unfold getitem.
  assert (Hn : (Z.of_nat n <? 0) = false) by (apply Z.ltb_ge; lia).
  rewrite Hn, Hn, Nat2Z.id. reflexivity.
Qed.

(** The decoder's test answers [True] exactly on the signature of a pick
    line. *)
Lemma decoder_test_signature (s : string) :
  decoder_test s = Ok true <-> has_pick_signature s.
Proof.
  unfold decoder_test, has_pick_signature.
  change (getitem s 5) with (getitem s (Z.of_nat 5)).
  change (getitem s 9) with (getitem s (Z.of_nat 9)).
  change (getitem s 20) with (getitem s (Z.of_nat 20)).
  rewrite !getitem_nat. split.
  - intros H.
    destruct (String.get 5 s) as [c5|]; cbn [bind] in H; [|discriminate H].
    destruct (Ascii.eqb c5 "P" || Ascii.eqb c5 " ") eqn:E5;
      [|discriminate H].
    destruct (String.get 9 s) as [c9|]; cbn [bind] in H; [|discriminate H].
    destruct (isdigit c9) eqn:E9; [|discriminate H].
    destruct (String.get 20 s) as [c20|]; cbn [bind] in H; [|discriminate H].
    injection H as E20.
    split.
    + apply orb_true_iff in E5.
      destruct E5 as [E|E]; apply Ascii.eqb_eq in E; subst c5; auto.
    + split; eexists; split; (reflexivity || assumption).
  - intros (H5 & (c9 & H9 & E9) & (c20 & H20 & E20)).
    rewrite H9, H20.
    destruct H5 as [-> | ->]; cbn [bind Ascii.eqb Bool.eqb orb];
      rewrite E9, E20; reflexivity.
Qed.


(** The decoder returns [None] at its two bare [return]s and nowhere else:
    on a line it passes over (line 94) and on a line that fails its test
    (line 101). *)
Lemma decoder_returns_None (line : string) (errors : list float) :
  _parse_hypo71_pick_line line errors = Ok None
  <-> skipped line = true \/ returns_at_line_101 line.
Proof.
  split.
  - unfold _parse_hypo71_pick_line, returns_at_line_101.
    fold (chomp line). fold (skipped line).
    destruct (skipped line); [left; reflexivity|].
    intros H. right. split; [reflexivity|].
    apply bind_Ok_inv in H. destruct H as (ok & Htest & H).
    destruct ok; cbn [negb] in H; [exfalso | exact Htest].
    apply bind_Ok_inv in H. destruct H as (q & _ & H).
    apply bind_Ok_inv in H. destruct H as (err & _ & H).
    apply bind_Ok_inv in H. destruct H as (t & _ & H).
    cbv beta iota zeta in H.
    destruct (String.eqb (strip (slice (chomp line) 31 36)) "");
      [discriminate H|].
    apply bind_Ok_inv in H. destruct H as (q2 & _ & H).
    apply bind_Ok_inv in H. destruct H as (err2 & _ & H).
    apply bind_Ok_inv in H. destruct H as (t2 & _ & H).
    discriminate H.
  - intros [Hskip | Hret].
    + unfold _parse_hypo71_pick_line.
      fold (chomp line). fold (skipped line). rewrite Hskip. reflexivity.
    + apply returns_at_line_101_None. exact Hret.
Qed.

(** C10.  The validator accepts a line by the very test the decoder
    repeats (position 5 is [P] or blank, positions 9 and 20 are digits,
    after the same removal of the newline and the same passing over blank
    and separator lines); so in a file that passed validation no line makes
    the decoder leave through its failed-test [return]: on every line of
    such a file the decoder, whatever the table of errors, returns [None]
    only when it passes over the line, and otherwise goes on to read the
    fields. *)
Theorem validated_file_never_fails_decoder_test :
  (forall line, validator_test line = decoder_test line)
  /\ (forall line, decoder_test line = Ok true <-> has_pick_signature line)
  /\ (forall line errors,
        _parse_hypo71_pick_line line errors = Ok None
        <-> skipped line = true \/ returns_at_line_101 line)
  /\ forall (fs : FileSystem) (pick_file text : string),
       fs pick_file = Some text ->
       _is_hypo71_picks fs pick_file = Ok tt ->
       forall line, In line (readlines text) ->
         ~ returns_at_line_101 line
         /\ (skipped line = true \/ decoder_test (chomp line) = Ok true)
         /\ (forall errors,
               _parse_hypo71_pick_line line errors = Ok None ->
               skipped line = true).
Proof.
  split; [exact validator_test_decoder_test|].
  split; [exact decoder_test_signature|].
  split; [exact decoder_returns_None|].
  intros fs pick_file text Hfile Hvalid line Hin.
  unfold _is_hypo71_picks, open in Hvalid. rewrite Hfile in Hvalid.
  simpl in Hvalid.
  assert (Hnot : ~ returns_at_line_101 line).
  { destruct (validated_lines_pass _ _ Hvalid line Hin) as [Hskip|Htest].
    - intros [Hno _]. congruence.
    - rewrite validator_test_decoder_test in Htest.
      intros [_ Hfail]. congruence. }
  split; [exact Hnot|]. split.
  - destruct (validated_lines_pass _ _ Hvalid line Hin) as [Hskip|Htest].
    + left; exact Hskip.
    + rewrite validator_test_decoder_test in Htest. right; exact Htest.
  - intros errors Hnone.
    apply decoder_returns_None in Hnone.
    destruct Hnone as [Hskip | Hret]; [exact Hskip | contradiction].
Qed.

Lemma validated_file_never_fails_decoder_test_witness :
  let line := ("NAPO P 1 240101123015.00" ++ nl)%string in
  let text := (line ++ "10" ++ nl)%string in
  let fs := single_file "picks.hyp" text in
  fs "picks.hyp" = Some text
  /\ _is_hypo71_picks fs "picks.hyp" = Ok tt
  /\ In line (readlines text)
  /\ skipped line = false
  /\ ~ returns_at_line_101 line
  /\ (skipped line = true \/ decoder_test (chomp line) = Ok true)
  /\ (forall errors,
        _parse_hypo71_pick_line line errors = Ok None -> skipped line = true).
Proof.
  intros line text fs.
  assert (Hfile : fs "picks.hyp" = Some text) by reflexivity.
  assert (Hvalid : _is_hypo71_picks fs "picks.hyp" = Ok tt)
    by (vm_compute; reflexivity).
  assert (Hin : In line (readlines text))
    by (left; vm_compute; reflexivity).
  split; [exact Hfile|]. split; [exact Hvalid|]. split; [exact Hin|].
  split; [vm_compute; reflexivity|].
  exact (proj2 (proj2 (proj2 validated_file_never_fails_decoder_test))
           fs "picks.hyp" text Hfile Hvalid line Hin).
Defined.

(** C4.  A line too short for the tested positions does not fail the test:
    reading position 5 of the three-character line [abc] raises
    [IndexError], which the validator does not turn into its
    "Not a hypo71 phase file" error and [parse_hypo71_picks] does not
    catch; the run ends on that [IndexError], with nothing written.  A line
    that has the positions and the wrong characters is rejected as the
    claim says. *)
Theorem short_line_raises_IndexError :
  forall float_repr : float -> string,
  let fs := single_file "picks.hyp" ("abc" ++ nl)%string in
  let argv := mk_Args "picks.hyp" None default_errors_option in
  _is_hypo71_picks fs "picks.hyp" = Raise IndexError
  /\ parse_hypo71_picks fs "picks.hyp" default_errors = Raise IndexError
  /\ run float_repr fs argv = mk_Outcome "" "" (Raise IndexError)
  /\ _is_hypo71_picks (single_file "picks.hyp" ("abcdeX" ++ nl)%string)
       "picks.hyp"
     = Raise (TypeError "picks.hyp: Not a hypo71 phase file").
Proof.
  intros float_repr fs argv. repeat split; reflexivity.
Qed.

(** ** Quality and error of a pick *)

(** C1.  A quality digit above 4 is read as it stands, not replaced by 4,
    and the look-up in a table of five entries raises [IndexError]: no Pick
    is emitted for the line, whether the digit is that of the first pick
    (position 7) or of the second (position 39). *)
Theorem quality_digit_above_4_raises_IndexError :
  forall e0 e1 e2 e3 e4 : float,
  let errors := [e0; e1; e2; e3; e4] in
  read_quality "7" = Ok 7
  /\ _parse_hypo71_pick_line "NAPO P 7 240101123015.00" errors
     = Raise IndexError
  /\ _parse_hypo71_pick_line
       "NAPO P 1 240101123015.00       17.30 S 7" errors
     = Raise IndexError.
Proof.
  intros e0 e1 e2 e3 e4 errors. repeat split; vm_compute; reflexivity.
Qed.

(** ** The [--errors] option *)








(** ** The decoder *)

Lemma get_in_range (s : string) (n : nat) :
  (n < String.length s)%nat -> exists c, String.get n s = Some c.
Proof.
  revert n. induction s as [|c s IH]; intros n Hn; simpl in Hn.
  - lia.
  - destruct n as [|n]; simpl.
    + exists c; reflexivity.
    + apply IH. lia.
Qed.

Lemma getitem_in_range (s : string) (i : Z) :
  0 <= i < len s -> exists c, getitem s i = Ok c.
Proof.
  intros Hi. unfold getitem.
  destruct (i <? 0) eqn:Hneg; [apply Z.ltb_lt in Hneg; lia|].
  rewrite Hneg.
  destruct (get_in_range s (Z.to_nat i)) as [c Hc].
  - unfold len in Hi. lia.
  - exists c. rewrite Hc. reflexivity.
Qed.

(** On a line of 21 characters or more the three-position test gives an
    answer. *)
Lemma decoder_test_answers (line : string) :
  21 <= len line -> exists b, decoder_test line = Ok b.
Proof.
  intros Hlen. unfold decoder_test.
  destruct (getitem_in_range line 5) as [c5 ->]; [lia|].
  destruct (getitem_in_range line 9) as [c9 ->]; [lia|].
  destruct (getitem_in_range line 20) as [c20 ->]; [lia|].
  simpl.
  destruct (Ascii.eqb c5 "P" || Ascii.eqb c5 " "); [|eexists; reflexivity].
  destruct (isdigit c9); eexists; reflexivity.
Qed.

Lemma list_getitem_in_range {A : Type} (l : list A) (i : Z) :
  0 <= i < Z.of_nat (List.length l) -> exists a, list_getitem l i = Ok a.
Proof.
  intros Hi. unfold list_getitem.
  destruct (i <? 0) eqn:Hneg; [apply Z.ltb_lt in Hneg; lia|].
  rewrite Hneg.
  destruct (nth_error l (Z.to_nat i)) as [a|] eqn:Hnth.
  - exists a; reflexivity.
  - apply nth_error_None in Hnth. lia.
Qed.

(** A quality within the table is looked up without error. *)
Lemma quality_in_table_lookup (field : string) (errors : list float) :
  List.length errors = 5%nat ->
  quality_in_table field = true ->
  exists q e, read_quality field = Ok q /\ 0 <= q <= 4
    /\ list_getitem errors q = Ok e.
Proof.
  intros Hlen Hq. unfold quality_in_table in Hq.
  destruct (read_quality field) as [q|] eqn:Hread; [|discriminate Hq].
  apply andb_true_iff in Hq. destruct Hq as [H0 H4].
  apply Z.leb_le in H0. apply Z.leb_le in H4.
  destruct (list_getitem_in_range errors q) as [e He]; [lia|].
  exists q, e. auto.
Qed.

(** What [int] cannot read is within the table: it becomes quality 4. *)
Lemma unreadable_quality_in_table (field : string) (e : exn) :
  int_of_str field = Raise e -> quality_in_table field = true.
Proof.
  intros H. unfold quality_in_table.
  rewrite (read_quality_fallback field e H). reflexivity.
Qed.

(** The decoder, entered: a line that is passed over. *)
Lemma decoder_skips (line : string) (errors : list float) :
  skipped line = true -> _parse_hypo71_pick_line line errors = Ok None.
Proof.
  intros Hskip. unfold _parse_hypo71_pick_line.
  fold (chomp line). fold (skipped line). rewrite Hskip. reflexivity.
Qed.

(** The decoder on a pick line whose first quality is within the table
    and whose time string does not yield a time: the exception goes to the
    caller. *)
Lemma decoder_raises_on_time (line : string) (errors : list float)
    (e : exn) :
  List.length errors = 5%nat ->
  skipped line = false ->
  decoder_test (chomp line) = Ok true ->
  quality_in_table (slice (chomp line) 7 8) = true ->
  primary_time (time_string line) = Raise e ->
  _parse_hypo71_pick_line line errors = Raise e.
Proof.
  intros Hlen Hskip Htest Hq Htime.
  destruct (quality_in_table_lookup _ errors Hlen Hq)
    as (q & err & Hread & _ & Hget).
  unfold _parse_hypo71_pick_line.
  fold (chomp line). fold (skipped line). fold (time_string line).
  rewrite Hskip, Htest. simpl. rewrite Hread. simpl. rewrite Hget. simpl.
  rewrite Htime. reflexivity.
Qed.

(** The decoder on a pick line without second pick. *)
Lemma decoder_first_pick_only (line : string) (errors : list float)
    (t : datetime) :
  List.length errors = 5%nat ->
  skipped line = false ->
  decoder_test (chomp line) = Ok true ->
  quality_in_table (slice (chomp line) 7 8) = true ->
  primary_time (time_string line) = Ok t ->
  strip (stime_field line) = "" ->
  exists q e,
    read_quality (slice (chomp line) 7 8) = Ok q
    /\ list_getitem errors q = Ok e
    /\ _parse_hypo71_pick_line line errors =
       Ok (Some (if String.eqb (slice (chomp line) 5 6) "P"
                 then [mk_Pick (strip (slice (chomp line) 0 4))
                         (slice (chomp line) 4 5) (slice (chomp line) 5 6)
                         (slice (chomp line) 6 7) q e (Some t)]
                 else [])).
Proof.
  intros Hlen Hskip Htest Hq Htime Hstime.
  destruct (quality_in_table_lookup _ errors Hlen Hq)
    as (q & err & Hread & _ & Hget).
  exists q, err. split; [exact Hread|]. split; [exact Hget|].
  unfold _parse_hypo71_pick_line.
  fold (chomp line). fold (skipped line). fold (time_string line).
  fold (stime_field line).
  rewrite Hskip, Htest. simpl. rewrite Hread. simpl. rewrite Hget. simpl.
  rewrite Htime. simpl. rewrite Hstime. simpl.
  destruct (String.eqb (slice (chomp line) 5 6) "P"); reflexivity.
Qed.

(** The decoder on a pick line with a second pick. *)
Lemma decoder_two_picks (line : string) (errors : list float)
    (t t2 : datetime) :
  List.length errors = 5%nat ->
  skipped line = false ->
  decoder_test (chomp line) = Ok true ->
  quality_in_table (slice (chomp line) 7 8) = true ->
  primary_time (time_string line) = Ok t ->
  strip (stime_field line) <> "" ->
  quality_in_table (slice (chomp line) 39 40) = true ->
  second_time t (stime_field line) = Ok t2 ->
  exists q e q2 e2,
    read_quality (slice (chomp line) 7 8) = Ok q
    /\ list_getitem errors q = Ok e
    /\ read_quality (slice (chomp line) 39 40) = Ok q2
    /\ list_getitem errors q2 = Ok e2
    /\ _parse_hypo71_pick_line line errors =
       Ok (Some ((if String.eqb (slice (chomp line) 5 6) "P"
                  then [mk_Pick (strip (slice (chomp line) 0 4))
                          (slice (chomp line) 4 5) (slice (chomp line) 5 6)
                          (slice (chomp line) 6 7) q e (Some t)]
                  else [])
                 ++ [mk_Pick (strip (slice (chomp line) 0 4))
                       (slice (chomp line) 36 37) (slice (chomp line) 37 38)
                       (slice (chomp line) 38 39) q2 e2 (Some t2)])%list).
Proof.
  intros Hlen Hskip Htest Hq Htime Hstime Hq2 Htime2.
  destruct (quality_in_table_lookup _ errors Hlen Hq)
    as (q & err & Hread & _ & Hget).
  destruct (quality_in_table_lookup _ errors Hlen Hq2)
    as (q2 & err2 & Hread2 & _ & Hget2).
  exists q, err, q2, err2. repeat (split; [assumption|]).
  unfold _parse_hypo71_pick_line.
  fold (chomp line). fold (skipped line). fold (time_string line).
  fold (stime_field line).
  rewrite Hskip, Htest. simpl. rewrite Hread. simpl. rewrite Hget. simpl.
  rewrite Htime. simpl.
  destruct (String.eqb (strip (stime_field line)) "") eqn:Hblank;
    [apply String.eqb_eq in Hblank; contradiction|].
  rewrite Hread2. simpl. rewrite Hget2. simpl. rewrite Htime2. simpl.
  destruct (String.eqb (slice (chomp line) 5 6) "P"); reflexivity.
Qed.

(** C2, as the code has it.  With a table of five errors, a line that is
    passed over, or that has the 21 characters the test reads, makes the
    decoder return, without an exception, nothing or a list of at most two
    Picks, provided that, if it is a pick line, it is decodable: its
    qualities select entries of the table (what [int] cannot read does, as
    quality 4) and its time fields yield times (a blank second-pick field
    simply gives no second pick).  A pick line whose time string yields no
    time makes the decoder raise that exception to its caller. *)
Theorem decoder_returns_at_most_two_picks :
  forall (line : string) (errors : list float),
  List.length errors = 5%nat ->
  (skipped line = true \/ 21 <= len (chomp line)) ->
  (skipped line = false -> decoder_test (chomp line) = Ok true ->
   quality_in_table (slice (chomp line) 7 8) = true)
  ->
  ((skipped line = false -> decoder_test (chomp line) = Ok true ->
    decodable line) ->
   exists r, _parse_hypo71_pick_line line errors = Ok r
     /\ (List.length (picks_of r) <= 2)%nat)
  /\ (forall e, skipped line = false ->
        decoder_test (chomp line) = Ok true ->
        primary_time (time_string line) = Raise e ->
        _parse_hypo71_pick_line line errors = Raise e).
Proof.
  intros line errors Hlen Hreach Hquality. split.
  - intros Hdec.
    destruct (skipped line) eqn:Hskip.
    { exists None. split; [apply decoder_skips; exact Hskip | simpl; lia]. }
    destruct Hreach as [Habs|Hreach]; [discriminate Habs|].
    destruct (decoder_test_answers _ Hreach) as [[|] Htest].
    + destruct (Hdec eq_refl Htest) as (Hq & t & Htime & Hsecond).
      destruct Hsecond as [Hblank | (Hq2 & t2 & Htime2)].
      * destruct (decoder_first_pick_only line errors t Hlen Hskip Htest Hq
                    Htime Hblank) as (q & e & _ & _ & ->).
        eexists; split; [reflexivity|].
        destruct (String.eqb (slice (chomp line) 5 6) "P"); simpl; lia.
      * destruct (string_dec (strip (stime_field line)) "") as [Hblank|Hfull].
        { destruct (decoder_first_pick_only line errors t Hlen Hskip Htest Hq
                      Htime Hblank) as (q & e & _ & _ & ->).
          eexists; split; [reflexivity|].
          destruct (String.eqb (slice (chomp line) 5 6) "P"); simpl; lia. }
        destruct (decoder_two_picks line errors t t2 Hlen Hskip Htest Hq
                    Htime Hfull Hq2 Htime2)
          as (q & e & q2 & e2 & _ & _ & _ & _ & ->).
        eexists; split; [reflexivity|].
        destruct (String.eqb (slice (chomp line) 5 6) "P"); simpl; lia.
    + exists None. split; [|simpl; lia].
      apply returns_at_line_101_None. split; assumption.
  - intros e Hskip Htest Htime.
    apply decoder_raises_on_time; auto.
Qed.

Lemma decoder_returns_at_most_two_picks_witness :
  List.length default_errors = 5%nat
  /\ (exists r,
        _parse_hypo71_pick_line "NAPO P 1 240101123015.00       17.30 S 2"
          default_errors = Ok r
        /\ (List.length (picks_of r) <= 2)%nat)
  /\ _parse_hypo71_pick_line "NAPO P x 2401011a3015.00" default_errors
     = Raise ValueError.
Proof.
  assert (Hlen : List.length default_errors = 5%nat)
    by (vm_compute; reflexivity).
  split; [exact Hlen|].
  split.
  - refine (proj1 (decoder_returns_at_most_two_picks
              "NAPO P 1 240101123015.00       17.30 S 2" default_errors
              Hlen _ _) _).
    + right. vm_compute. discriminate.
    + intros _ _. vm_compute. reflexivity.
    + intros _ _. split; [vm_compute; reflexivity|].
      eexists. split; [vm_compute; reflexivity|].
      right. split; [vm_compute; reflexivity|].
      eexists. vm_compute. reflexivity.
  - refine (proj2 (decoder_returns_at_most_two_picks
              "NAPO P x 2401011a3015.00" default_errors
              Hlen _ _) ValueError _ _ _).
    + right. vm_compute. discriminate.
    + intros _ _. vm_compute. reflexivity.
    + vm_compute. reflexivity.
    + vm_compute. reflexivity.
    + vm_compute. reflexivity.
Defined.

(** C2 as stated fails: a line with the three tested characters in place
    and letters in its hour field makes the decoder raise [ValueError]. *)
Lemma decoder_raises_on_unreadable_hour :
  List.length default_errors = 5%nat
  /\ decoder_test "NAPO P 1 2401011a3015.00" = Ok true
  /\ int_of_str (slice (time_string "NAPO P 1 2401011a3015.00") 6 8)
     = Raise ValueError
  /\ _parse_hypo71_pick_line "NAPO P 1 2401011a3015.00" default_errors
     = Raise ValueError.
Proof. repeat split; vm_compute; reflexivity. Qed.

(** C9, as the code has it.  A line with the three tested characters in
    place, a blank phase and a blank second-pick seconds field yields no
    Pick, provided its quality character selects an entry of the table and
    its time string yields a time. *)
Theorem time_base_line_yields_no_pick :
  forall (line : string) (errors : list float) (t : datetime),
  List.length errors = 5%nat ->
  skipped line = false ->
  decoder_test (chomp line) = Ok true ->
  slice (chomp line) 5 6 = " " ->
  strip (stime_field line) = "" ->
  quality_in_table (slice (chomp line) 7 8) = true ->
  primary_time (time_string line) = Ok t ->
  _parse_hypo71_pick_line line errors = Ok (Some []).
Proof.
  intros line errors t Hlen Hskip Htest Hphase Hstime Hq Htime.
  destruct (decoder_first_pick_only line errors t Hlen Hskip Htest Hq
              Htime Hstime) as (q & e & _ & _ & ->).
  rewrite Hphase. reflexivity.
Qed.

Lemma time_base_line_yields_no_pick_witness :
  _parse_hypo71_pick_line "NAPO     240101123015.00" default_errors
  = Ok (Some []).
Proof.
  apply (time_base_line_yields_no_pick "NAPO     240101123015.00"
           default_errors
           (mk_datetime (ymd2ord 2024 1 1 * US_PER_DAY + 12 * US_PER_HOUR
                         + 30 * US_PER_MINUTE + 15 * US_PER_SECOND)));
    vm_compute; reflexivity.
Defined.

(** C9 as stated fails: a line with the three tested characters in place,
    a blank phase and no second-pick field, whose month is 13, yields no
    list of Picks at all: the decoder raises [ValueError]. *)
Lemma time_base_line_with_month_13_raises :
  skipped "NAPO     241301123015.00" = false
  /\ decoder_test (chomp "NAPO     241301123015.00") = Ok true
  /\ slice (chomp "NAPO     241301123015.00") 5 6 = " "
  /\ stime_field "NAPO     241301123015.00" = ""
  /\ List.length default_errors = 5%nat
  /\ _parse_hypo71_pick_line "NAPO     241301123015.00" default_errors
     = Raise ValueError.
Proof. repeat split; vm_compute; reflexivity. Qed.

(** What a returned list of picks tells about the line: the decoder went
    through every step, and the list is made of the first pick, if its
    phase is [P], and of the second, if the line has one. *)
Lemma decoder_inv (line : string) (errors : list float) (picks : list Pick) :
  _parse_hypo71_pick_line line errors = Ok (Some picks) ->
  skipped line = false
  /\ decoder_test (chomp line) = Ok true
  /\ exists q e t,
       read_quality (slice (chomp line) 7 8) = Ok q
       /\ list_getitem errors q = Ok e
       /\ primary_time (time_string line) = Ok t
       /\ ((strip (stime_field line) = ""
            /\ picks = kept_first line (first_pick line q e t))
           \/ (strip (stime_field line) <> ""
               /\ exists q2 e2 t2,
                    read_quality (slice (chomp line) 39 40) = Ok q2
                    /\ list_getitem errors q2 = Ok e2
                    /\ second_time t (stime_field line) = Ok t2
                    /\ picks = (kept_first line (first_pick line q e t)
                                ++ [second_pick line q2 e2 t2])%list)).
Proof.
  unfold _parse_hypo71_pick_line.
  fold (chomp line). fold (skipped line). fold (time_string line).
  fold (stime_field line).
  intros H.
  destruct (skipped line); [discriminate H|].
  split; [reflexivity|].
  apply bind_Ok_inv in H. destruct H as (ok & Htest & H).
  destruct ok; simpl in H; [|discriminate H].
  split; [exact Htest|].
  apply bind_Ok_inv in H. destruct H as (q & Hq & H).
  apply bind_Ok_inv in H. destruct H as (e & He & H).
  apply bind_Ok_inv in H. destruct H as (t & Ht & H).
  exists q, e, t. repeat (split; [assumption|]).
  simpl in H.
  destruct (String.eqb (strip (stime_field line)) "") eqn:Hblank.
  - left. apply String.eqb_eq in Hblank. split; [exact Hblank|].
    unfold kept_first, first_pick.
    destruct (String.eqb (slice (chomp line) 5 6) "P");
      injection H as <-; reflexivity.
  - right. apply String.eqb_neq in Hblank. split; [exact Hblank|].
    apply bind_Ok_inv in H. destruct H as (q2 & Hq2 & H).
    apply bind_Ok_inv in H. destruct H as (e2 & He2 & H).
    apply bind_Ok_inv in H. destruct H as (t2 & Ht2 & H).
    exists q2, e2, t2. repeat (split; [assumption|]).
    unfold kept_first, first_pick, second_pick.
    destruct (String.eqb (slice (chomp line) 5 6) "P"); simpl in H;
      injection H as <-; reflexivity.
Qed.

(** ** Times *)

Lemma check_delta_inv (us d : Z) : check_delta us = Ok d -> d = us.
Proof.
  unfold check_delta.
  destruct ((-999999999 <=? us / US_PER_DAY) && (us / US_PER_DAY <=? 999999999));
    congruence.
Qed.

Lemma datetime_add_inv (t r : datetime) (d : Z) :
  datetime_add t d = Ok r ->
  micros r = micros t + d /\ in_range r = true.
Proof.
  unfold datetime_add.
  destruct (in_range (mk_datetime (micros t + d))) eqn:Hr; [|discriminate].
  intros H. injection H as <-. split; [reflexivity | exact Hr].
Qed.

Lemma strptime_ymd_midnight (s : string) (t : datetime) :
  strptime_ymd s = Ok t -> exists o, micros t = o * US_PER_DAY.
Proof.
  unfold strptime_ymd.
  destruct (re_ymd s) as [|[[[y m] d] rest] alts]; [discriminate|].
  destruct rest; [|discriminate].
  intros H.
  apply bind_Ok_inv in H. destruct H as (yy & _ & H).
  apply bind_Ok_inv in H. destruct H as (mm & _ & H).
  apply bind_Ok_inv in H. destruct H as (dd & _ & H).
  match type of H with (if ?c then _ else _) = _ => destruct c end;
    [|discriminate H].
  injection H as <-. eexists; reflexivity.
Qed.

Lemma int_of_float_truncates (x : float) (n : Z) :
  int_of_float x = Ok n -> truncates x n.
Proof.
  destruct x as [s|s| |s m e]; unfold int_of_float, truncates, modf;
    try discriminate.
  - cbn [fst]. intros H. injection H as <-. reflexivity.
  - assert (HM : 0 < Z.pos m) by lia.
    set (M := Z.pos m) in *. clearbody M.
    destruct (0 <=? e) eqn:He; cbn [fst]; intros H; injection H as <-.
    + apply Z.leb_le in He.
      assert (0 < 2 ^ e) by (apply Z.pow_pos_nonneg; lia).
      destruct s; split; nia.
    + apply Z.leb_gt in He.
      assert (Hp : 0 < 2 ^ (- e)) by (apply Z.pow_pos_nonneg; lia).
      pose proof (Z.div_pos M (2 ^ (- e)) ltac:(lia) Hp) as Hq.
      pose proof (Z.mul_div_le M (2 ^ (- e)) Hp) as Hle.
      pose proof (Z.mul_succ_div_gt M (2 ^ (- e)) Hp) as Hgt.
      destruct s; split; try lia;
        rewrite ?Z.abs_opp, Z.abs_eq by lia; lia.
Qed.

(** The parts of the time of the first pick. *)
Lemma primary_time_inv (timestr : string) (t : datetime) :
  primary_time timestr = Ok t ->
  exists hour minute seconds ms o,
    int_of_str (slice timestr 6 8) = Ok hour
    /\ int_of_str (slice timestr 8 10) = Ok minute
    /\ float_of_str (slice timestr 10 15) = Ok seconds
    /\ int_of_float (float_mul seconds (float_of_Z 1000)) = Ok ms
    /\ strptime_ymd (slice timestr 0 6) = Ok (mk_datetime (o * US_PER_DAY))
    /\ micros t = o * US_PER_DAY + hour * US_PER_HOUR
                  + minute * US_PER_MINUTE + ms * 1000
    /\ in_range t = true.
Proof.
  unfold primary_time. intros H.
  apply bind_Ok_inv in H. destruct H as (hour & Hh & H).
  apply bind_Ok_inv in H. destruct H as (minute & Hm & H).
  apply bind_Ok_inv in H. destruct H as (seconds & Hs & H).
  apply bind_Ok_inv in H. destruct H as (ms & Hms & H).
  apply bind_Ok_inv in H. destruct H as (t0 & Ht0 & H).
  apply bind_Ok_inv in H. destruct H as (d & Hd & H).
  destruct (strptime_ymd_midnight _ _ Ht0) as [o Ho].
  apply check_delta_inv in Hd.
  apply datetime_add_inv in H. destruct H as [Hmic Hrange].
  exists hour, minute, seconds, ms, o.
  repeat (split; [assumption|]).
  split; [destruct t0 as [u]; simpl in Ho; subst u; exact Ht0|].
  split; [|exact Hrange].
  rewrite Hmic, Ho, Hd. ring.
Qed.

Lemma microsecond_of_milliseconds (o h m ms : Z) :
  (o * US_PER_DAY + h * US_PER_HOUR + m * US_PER_MINUTE + ms * 1000)
    mod US_PER_SECOND = 1000 * (ms mod 1000).
Proof.
  unfold US_PER_DAY, US_PER_HOUR, US_PER_MINUTE, US_PER_SECOND.
  replace (o * (24 * (60 * (60 * 1000000))) + h * (60 * (60 * 1000000))
           + m * (60 * 1000000) + ms * 1000)
    with (1000 * ms + (o * 86400 + h * 3600 + m * 60) * 1000000) by ring.
  rewrite Z.mod_add by lia.
  change 1000000 with (1000 * 1000).
  rewrite Z.mul_mod_distr_l by lia. reflexivity.
Qed.

(** C6.  On every line the decoder turns into picks, the milliseconds of
    the first time are the float product [seconds * 1000] cut off at the
    point (its floor when it is not negative), and the sub-second part of
    that time is that number of milliseconds modulo 1000; nothing is
    rounded: the seconds value 12.3459 gives 12345 milliseconds, hence
    345 ms, not 346. *)
Theorem primary_milliseconds_are_truncated :
  forall (line : string) (errors : list float) (picks : list Pick),
  _parse_hypo71_pick_line line errors = Ok (Some picks) ->
  (exists seconds ms t,
     float_of_str (slice (time_string line) 10 15) = Ok seconds
     /\ int_of_float (float_mul seconds (float_of_Z 1000)) = Ok ms
     /\ truncates (float_mul seconds (float_of_Z 1000)) ms
     /\ primary_time (time_string line) = Ok t
     /\ microsecond t = 1000 * (ms mod 1000)
     /\ (slice (chomp line) 5 6 = "P" ->
         exists p, hd_error picks = Some p /\ time p = Some t))
  /\ (exists x, float_of_str "12.3459" = Ok x
        /\ int_of_float (float_mul x (float_of_Z 1000)) = Ok 12345
        /\ 1000 * (12345 mod 1000) = 345000).
Proof.
  intros line errors picks Hdec. split.
  - apply decoder_inv in Hdec.
    destruct Hdec as (_ & _ & q & e & t & _ & _ & Ht & Hpicks).
    destruct (primary_time_inv _ _ Ht)
      as (hour & minute & seconds & ms & o & _ & _ & Hs & Hms & _ & Hmic & _).
    exists seconds, ms, t.
    split; [exact Hs|]. split; [exact Hms|].
    split; [apply int_of_float_truncates; exact Hms|].
    split; [exact Ht|].
    split.
    + unfold microsecond. rewrite Hmic. apply microsecond_of_milliseconds.
    + intros Hphase. exists (first_pick line q e t).
      split; [|reflexivity].
      destruct Hpicks as [(_ & ->) | (_ & q2 & e2 & t2 & _ & _ & _ & ->)];
        unfold kept_first; rewrite Hphase; reflexivity.
  - eexists. split; [vm_compute; reflexivity|].
    split; vm_compute; reflexivity.
Qed.

Lemma primary_milliseconds_are_truncated_witness :
  exists seconds ms t,
    float_of_str (slice (time_string "NAPO P 1 240101123002.01") 10 15)
    = Ok seconds
    /\ int_of_float (float_mul seconds (float_of_Z 1000)) = Ok ms
    /\ truncates (float_mul seconds (float_of_Z 1000)) ms
    /\ primary_time (time_string "NAPO P 1 240101123002.01") = Ok t
    /\ microsecond t = 1000 * (ms mod 1000)
    /\ (slice (chomp "NAPO P 1 240101123002.01") 5 6 = "P" ->
        exists p,
          hd_error
            [first_pick "NAPO P 1 240101123002.01" 1
               (nth 1 default_errors (S754_zero false))
               (mk_datetime 63839795402009000)]
          = Some p /\ time p = Some t).
Proof.
  refine (proj1 (primary_milliseconds_are_truncated
            "NAPO P 1 240101123002.01" default_errors _ _)).
  vm_compute. reflexivity.
Defined.

(** The seconds field [02.01] is the float just below 2.01, its product
    with 1000 the float just below 2010: the time gets 2009 ms. *)
Example seconds_02_01_give_2009_milliseconds :
  (x <- float_of_str "02.01" ;; int_of_float (float_mul x (float_of_Z 1000)))
  = Ok 2009
  /\ option_map (map (fun p => option_map strftime (time p)))
       (picks_of_res (_parse_hypo71_pick_line "NAPO P 1 240101123002.01"
                        default_errors))
     = Some [Some "20240101 1230 02.009000"].
Proof. split; vm_compute; reflexivity. Qed.

(** ** The second pick *)

Lemma second_time_inv (t t2 : datetime) (stime : string) :
  second_time t stime = Ok t2 ->
  exists x d,
    float_of_str stime = Ok x
    /\ timedelta_seconds x = Ok d
    /\ micros t2 = micros (replace_second_0 t) + d
    /\ in_range t2 = true.
Proof.
  unfold second_time. intros H.
  apply bind_Ok_inv in H. destruct H as (x & Hx & H).
  apply bind_Ok_inv in H. destruct H as (d & Hd & H).
  apply datetime_add_inv in H. destruct H as [Hmic Hrange].
  exists x, d. auto.
Qed.

(** The minutes since day 0, from the fields. *)
Lemma minutes_of_fields (t : datetime) :
  micros t / US_PER_MINUTE = toordinal t * 1440 + hour t * 60 + minute t.
Proof.
  unfold toordinal, hour, minute, US_PER_DAY, US_PER_HOUR.
  set (q := micros t / US_PER_MINUTE).
  replace (micros t / (24 * (60 * US_PER_MINUTE))) with (q / 1440).
  2:{ unfold q. rewrite Z.div_div by (unfold US_PER_MINUTE, US_PER_SECOND; lia).
      reflexivity. }
  replace (micros t / (60 * US_PER_MINUTE)) with (q / 60).
  2:{ unfold q. rewrite Z.div_div by (unfold US_PER_MINUTE, US_PER_SECOND; lia).
      reflexivity. }
  pose proof (Z.div_mod q 60 ltac:(lia)).
  pose proof (Z.div_mod (q / 60) 24 ltac:(lia)).
  assert (q / 60 / 24 = q / 1440) by (rewrite Z.div_div by lia; reflexivity).
  lia.
Qed.

Lemma fields_of_minutes (t t' : datetime) :
  micros t / US_PER_MINUTE = micros t' / US_PER_MINUTE ->
  toordinal t = toordinal t' /\ hour t = hour t' /\ minute t = minute t'.
Proof.
  intros H. unfold toordinal, hour, minute, US_PER_DAY, US_PER_HOUR.
  replace (24 * (60 * US_PER_MINUTE)) with (US_PER_MINUTE * 1440) by ring.
  replace (60 * US_PER_MINUTE) with (US_PER_MINUTE * 60) by ring.
  rewrite <- !Z.div_div by (unfold US_PER_MINUTE, US_PER_SECOND; lia).
  rewrite H. auto.
Qed.

(** A time of the first pick's minute plus [d] microseconds. *)
Lemma minute_plus_offset (t t2 : datetime) (d : Z) :
  micros t2 = micros (replace_second_0 t) + d ->
  (0 <= d < US_PER_MINUTE ->
   toordinal t2 = toordinal t /\ hour t2 = hour t /\ minute t2 = minute t
   /\ second t2 * US_PER_SECOND + microsecond t2 = d)
  /\ (~ 0 <= d < US_PER_MINUTE ->
      ~ (toordinal t2 = toordinal t /\ hour t2 = hour t
         /\ minute t2 = minute t)).
Proof.
  unfold replace_second_0. cbn [micros]. intros Hmic.
  assert (HM : 0 < US_PER_MINUTE) by (unfold US_PER_MINUTE, US_PER_SECOND; lia).
  pose proof (Z.div_mod (micros t) US_PER_MINUTE ltac:(lia)) as Hdm.
  pose proof (Z.mod_pos_bound (micros t) US_PER_MINUTE HM) as Hb.
  set (q := micros t / US_PER_MINUTE) in *.
  assert (Hm2 : micros t2 = q * US_PER_MINUTE + d) by lia.
  split.
  - intros Hd.
    assert (Hq : micros t2 / US_PER_MINUTE = q).
    { rewrite Hm2. rewrite Z.div_add_l by lia. rewrite Z.div_small by lia. lia. }
    destruct (fields_of_minutes t2 t) as (Ho & Hh & Hmin); [exact Hq|].
    repeat (split; [assumption|]).
    unfold second, microsecond. rewrite Hm2.
    assert (HS : 0 < US_PER_SECOND) by (unfold US_PER_SECOND; lia).
    replace (q * US_PER_MINUTE + d) with (d + (q * 60) * US_PER_SECOND)
      by (unfold US_PER_MINUTE; ring).
    rewrite Z.div_add, Z.mod_add by lia.
    rewrite Z.add_mod, Z.mod_mul, Z.add_0_r, Z.mod_mod by lia.
    assert (0 <= d / US_PER_SECOND < 60).
    { split; [apply Z.div_pos; lia|].
      apply Z.div_lt_upper_bound; unfold US_PER_MINUTE in Hd; lia. }
    rewrite (Z.mod_small (d / US_PER_SECOND)) by lia.
    pose proof (Z.div_mod d US_PER_SECOND ltac:(lia)). lia.
  - intros Hd (Ho & Hh & Hmin).
    pose proof (minutes_of_fields t) as H1.
    pose proof (minutes_of_fields t2) as H2.
    rewrite Ho, Hh, Hmin, <- H1 in H2. fold q in H2.
    rewrite Hm2 in H2. rewrite Z.div_add_l in H2 by lia.
    assert (d / US_PER_MINUTE = 0) by lia.
    apply Z.div_small_iff in H; lia.
Qed.

Lemma same_ordinal_same_date (t t' : datetime) :
  toordinal t = toordinal t' ->
  year t = year t' /\ month t = month t' /\ day t = day t'.
Proof. unfold year, month, day. intros ->. auto. Qed.

(** C5, as the code has it.  A pick line with phase [P] and a non-blank
    second-pick seconds field, whose qualities select entries of the table
    and whose two times can be built, yields exactly two Picks.  The time
    of the second is the time of the first with its seconds and
    microseconds set to zero, plus the seconds read from the field
    ([d] microseconds).  When that value lies in [0, 60) the second Pick
    has the date, hour and minute of the first and its seconds are the
    value read; otherwise the minute, hour or date differ. *)
Theorem second_pick_time_is_minute_plus_stime :
  forall (line : string) (errors : list float) (t1 t2 : datetime),
  List.length errors = 5%nat ->
  skipped line = false ->
  decoder_test (chomp line) = Ok true ->
  slice (chomp line) 5 6 = "P" ->
  strip (stime_field line) <> "" ->
  quality_in_table (slice (chomp line) 7 8) = true ->
  quality_in_table (slice (chomp line) 39 40) = true ->
  primary_time (time_string line) = Ok t1 ->
  second_time t1 (stime_field line) = Ok t2 ->
  exists p1 p2 x d,
    _parse_hypo71_pick_line line errors = Ok (Some [p1; p2])
    /\ time p1 = Some t1 /\ time p2 = Some t2
    /\ float_of_str (stime_field line) = Ok x
    /\ timedelta_seconds x = Ok d
    /\ micros t2 = micros (replace_second_0 t1) + d
    /\ (0 <= d < US_PER_MINUTE ->
        (year t2 = year t1 /\ month t2 = month t1 /\ day t2 = day t1)
        /\ hour t2 = hour t1 /\ minute t2 = minute t1
        /\ second t2 * US_PER_SECOND + microsecond t2 = d)
    /\ (~ 0 <= d < US_PER_MINUTE ->
        ~ (toordinal t2 = toordinal t1 /\ hour t2 = hour t1
           /\ minute t2 = minute t1)).
Proof.
  intros line errors t1 t2 Hlen Hskip Htest Hphase Hstime Hq Hq2 Ht1 Ht2.
  destruct (decoder_two_picks line errors t1 t2 Hlen Hskip Htest Hq Ht1
              Hstime Hq2 Ht2)
    as (q & e & q2 & e2 & _ & _ & _ & _ & Hdec).
  rewrite Hphase in Hdec. simpl in Hdec.
  destruct (second_time_inv _ _ _ Ht2) as (x & d & Hx & Hd & Hmic & _).
  destruct (minute_plus_offset _ _ _ Hmic) as [Hin Hout].
  eexists _, _, x, d.
  split; [exact Hdec|].
  split; [reflexivity|]. split; [reflexivity|].
  split; [exact Hx|]. split; [exact Hd|]. split; [exact Hmic|].
  split; [|exact Hout].
  intros Hrange. destruct (Hin Hrange) as (Ho & Hh & Hm & Hs).
  split; [apply same_ordinal_same_date; exact Ho|]. auto.
Qed.

Lemma second_pick_time_is_minute_plus_stime_witness :
  let line := "NAPO P 1 240101123015.00       17.30 S 2" in
  exists p1 p2 x d t1 t2,
    _parse_hypo71_pick_line line default_errors = Ok (Some [p1; p2])
    /\ time p1 = Some t1 /\ time p2 = Some t2
    /\ float_of_str (stime_field line) = Ok x
    /\ timedelta_seconds x = Ok d
    /\ micros t2 = micros (replace_second_0 t1) + d
    /\ (0 <= d < US_PER_MINUTE ->
        (year t2 = year t1 /\ month t2 = month t1 /\ day t2 = day t1)
        /\ hour t2 = hour t1 /\ minute t2 = minute t1
        /\ second t2 * US_PER_SECOND + microsecond t2 = d)
    /\ (~ 0 <= d < US_PER_MINUTE ->
        ~ (toordinal t2 = toordinal t1 /\ hour t2 = hour t1
           /\ minute t2 = minute t1)).
Proof.
  intros line.
  assert (Ht1 : primary_time (time_string line)
                = Ok (mk_datetime 63839795415000000))
    by (vm_compute; reflexivity).
  assert (Ht2 : second_time (mk_datetime 63839795415000000)
                  (stime_field line)
                = Ok (mk_datetime 63839795417300000))
    by (vm_compute; reflexivity).
  destruct (second_pick_time_is_minute_plus_stime line default_errors
              _ _
              ltac:(vm_compute; reflexivity) ltac:(vm_compute; reflexivity)
              ltac:(vm_compute; reflexivity) ltac:(vm_compute; reflexivity)
              ltac:(vm_compute; discriminate) ltac:(vm_compute; reflexivity)
              ltac:(vm_compute; reflexivity) Ht1 Ht2)
    as (p1 & p2 & x & d & H).
  exists p1, p2, x, d, (mk_datetime 63839795415000000),
    (mk_datetime 63839795417300000).
  exact H.
Defined.

(** C5 as stated fails: with the second-pick seconds 75.30 the line yields
    two Picks, but the second is in minute 31 with seconds 15.3, the first
    in minute 30. *)
Lemma second_pick_past_the_minute :
  let line := "NAPO P 1 240101123015.00       75.30 S 2" in
  decoder_test (chomp line) = Ok true
  /\ slice (chomp line) 5 6 = "P"
  /\ stime_field line = "75.30"
  /\ (exists x, float_of_str "75.30" = Ok x
        /\ timedelta_seconds x = Ok 75300000)
  /\ exists p1 p2 t1 t2,
       _parse_hypo71_pick_line line default_errors = Ok (Some [p1; p2])
       /\ time p1 = Some t1 /\ time p2 = Some t2
       /\ minute t1 = 30 /\ minute t2 = 31
       /\ second t2 = 15 /\ microsecond t2 = 300000.
Proof.
  intros line.
  split; [vm_compute; reflexivity|].
  split; [vm_compute; reflexivity|].
  split; [vm_compute; reflexivity|].
  split.
  { eexists. split; [vm_compute; reflexivity|]. vm_compute. reflexivity. }
  eexists _, _, _, _.
  split; [vm_compute; reflexivity|].
  split; [reflexivity|]. split; [reflexivity|].
  repeat split; vm_compute; reflexivity.
Qed.

(** ** Stripping and the removal of a blank character *)

Section Strip.

Variable sp : ascii -> bool.
Variable c : ascii.
Hypothesis sp_c : sp c = true.

Lemma lstrip_by_remove_char (s : string) :
  lstrip_by sp (remove_char c s) = remove_char c (lstrip_by sp s).
Proof.
  induction s as [|x s IH]; simpl; [reflexivity|].
  destruct (Ascii.eqb x c) eqn:Hx.
  - apply Ascii.eqb_eq in Hx. subst x. rewrite sp_c. exact IH.
  - simpl. destruct (sp x); [exact IH|].
    simpl. rewrite Hx. reflexivity.
Qed.

(** What is left of a string stripped on the right does not vanish when
    blanks are taken out of it. *)
Lemma rstrip_by_remove_char_empty (s : string) :
  remove_char c (rstrip_by sp s) = "" -> rstrip_by sp s = "".
Proof.
  induction s as [|x s IH]; simpl; [reflexivity|].
  destruct (rstrip_by sp s) as [|y r] eqn:Hr.
  - destruct (sp x) eqn:Hx; [reflexivity|].
    simpl. destruct (Ascii.eqb x c) eqn:Hxc; [|discriminate].
    apply Ascii.eqb_eq in Hxc. subst x. congruence.
  - intros H. simpl in H.
    destruct (Ascii.eqb x c); [|discriminate H].
    specialize (IH H). discriminate IH.
Qed.

Lemma rstrip_by_remove_char (s : string) :
  rstrip_by sp (remove_char c s) = remove_char c (rstrip_by sp s).
Proof.
  induction s as [|x s IH]; [reflexivity|].
  cbn [remove_char rstrip_by].
  destruct (Ascii.eqb x c) eqn:Hxc.
  - apply Ascii.eqb_eq in Hxc. subst x. rewrite sp_c, IH.
    destruct (rstrip_by sp s) as [|y r] eqn:Hr; [reflexivity|].
    cbn [remove_char]. rewrite Ascii.eqb_refl. reflexivity.
  - cbn [rstrip_by]. rewrite IH.
    destruct (rstrip_by sp s) as [|y r] eqn:Hr.
    + cbn [remove_char]. destruct (sp x); [reflexivity|].
      cbn [remove_char]. rewrite Hxc. reflexivity.
    + destruct (remove_char c (String y r)) as [|z r'] eqn:Hrem.
      * rewrite <- Hr in Hrem. apply rstrip_by_remove_char_empty in Hrem.
        congruence.
      * rewrite <- Hrem. cbn [remove_char]. rewrite Hxc. reflexivity.
Qed.

Lemma strip_by_remove_char (s : string) :
  strip_by sp (remove_char c s) = remove_char c (strip_by sp s).
Proof.
  unfold strip_by. rewrite lstrip_by_remove_char. apply rstrip_by_remove_char.
Qed.

End Strip.

(** The segmenter's separator lines are lines the decoder passes over. *)
Lemma separator_is_skipped (line : string) :
  is_separator line = true -> skipped line = true.
Proof.
  unfold is_separator, skipped, chomp, str_in, strip. simpl.
  rewrite orb_false_r. intros H. apply String.eqb_eq in H.
  rewrite (strip_by_remove_char isspace newline eq_refl), H.
  reflexivity.
Qed.

(** ** The segmenter *)

(** One turn of the segmenter's loop. *)
Lemma parse_hypo71_picks_loop_cons (errors : list float) (line : string)
    (fp : list string) (all_picks : list (list Pick)) (picks : list Pick) :
  parse_hypo71_picks_loop errors (line :: fp) all_picks picks =
  (_picks <- _parse_hypo71_pick_line line errors ;;
   parse_hypo71_picks_loop errors fp
     (if is_separator line then all_picks ++ [picks] else all_picks)%list
     ((if is_separator line then [] else picks) ++ picks_of _picks)%list).
Proof.
  cbn [parse_hypo71_picks_loop]. fold (is_separator line).
  destruct (is_separator line);
    destruct (_parse_hypo71_pick_line line errors) as [[[|p ps]|]|e];
    cbn [bind picks_of]; rewrite ?app_nil_r; reflexivity.
Qed.

Lemma line_groups_length (cur fp : list string) :
  List.length (line_groups cur fp) = count_separators fp.
Proof.
  unfold count_separators. revert cur.
  induction fp as [|line fp IH]; intros cur; cbn [line_groups filter].
  - reflexivity.
  - destruct (is_separator line); cbn [List.length]; rewrite IH; reflexivity.
Qed.

Lemma decoded_Ok (errors : list float) (line : string)
    (r : option (list Pick)) :
  _parse_hypo71_pick_line line errors = Ok r -> decoded errors line = picks_of r.
Proof. unfold decoded. intros ->. reflexivity. Qed.

(** The loop, from any state: it closes the groups that the lines still
    to come close, beginning with the lines [cur] read since the last
    separator. *)
Lemma parse_hypo71_picks_loop_groups (errors : list float)
    (fp : list string) :
  (forall line, In line fp ->
     exists r, _parse_hypo71_pick_line line errors = Ok r) ->
  forall (cur : list string) (all_picks : list (list Pick)),
  parse_hypo71_picks_loop errors fp all_picks
    (flat_map (decoded errors) cur)
  = Ok (all_picks
        ++ map (flat_map (decoded errors)) (line_groups cur fp))%list.
Proof.
  induction fp as [|line fp IH]; intros Hdec cur all_picks.
  - cbn. rewrite app_nil_r. reflexivity.
  - rewrite parse_hypo71_picks_loop_cons.
    destruct (Hdec line (or_introl eq_refl)) as [r Hr].
    rewrite Hr. cbn [bind line_groups].
    assert (Hrest : forall l, In l fp ->
              exists r, _parse_hypo71_pick_line l errors = Ok r)
      by (intros l Hl; apply Hdec; right; exact Hl).
    destruct (is_separator line) eqn:Hsep.
    + assert (r = None).
      { pose proof (decoder_skips line errors (separator_is_skipped _ Hsep)).
        congruence. }
      subst r. cbn [picks_of app].
      pose proof (IH Hrest []
                    (all_picks ++ [flat_map (decoded errors) cur])%list)
        as Hloop.
      cbn [flat_map] in Hloop. rewrite Hloop.
      cbn [map]. rewrite <- app_assoc. reflexivity.
    + replace (flat_map (decoded errors) cur ++ picks_of r)%list
        with (flat_map (decoded errors) (cur ++ [line])%list).
      * apply IH. exact Hrest.
      * rewrite flat_map_app. cbn [flat_map]. rewrite app_nil_r.
        rewrite (decoded_Ok _ _ _ Hr). reflexivity.
Qed.

(** When the decoder raises on a line, so does the loop. *)
Lemma parse_hypo71_picks_loop_raises (errors : list float)
    (fp : list string) :
  (exists line e, In line fp /\ _parse_hypo71_pick_line line errors = Raise e) ->
  forall all_picks picks,
  exists e, parse_hypo71_picks_loop errors fp all_picks picks = Raise e.
Proof.
  induction fp as [|l fp IH]; intros (line & e & Hin & Hraise) all_picks picks.
  - contradiction.
  - rewrite parse_hypo71_picks_loop_cons.
    destruct (_parse_hypo71_pick_line l errors) as [r|e'] eqn:Hl.
    + cbn [bind]. apply IH. exists line, e. split; [|exact Hraise].
      destruct Hin as [<-|Hin]; [congruence | exact Hin].
    + exists e'. reflexivity.
Qed.

(** C3, as the code has it.  In a file that passes validation and on whose
    lines the decoder does not raise, N separator lines give exactly N
    events, in the order of the file: the event closed by a separator holds
    the picks of the lines since the separator before it, and of no other
    line; the picks of the lines after the last separator are in no
    event. *)
Theorem separators_close_events :
  forall (fs : FileSystem) (pick_file text : string) (errors : list float),
  fs pick_file = Some text ->
  _is_hypo71_picks fs pick_file = Ok tt ->
  (forall line, In line (readlines text) ->
     exists r, _parse_hypo71_pick_line line errors = Ok r) ->
  exists events,
    parse_hypo71_picks fs pick_file errors = Ok events
    /\ List.length events = count_separators (readlines text)
    /\ events = events_by_separator errors (readlines text).
Proof.
  intros fs pick_file text errors Hfile Hvalid Hdec.
  exists (events_by_separator errors (readlines text)).
  split; [|split; [|reflexivity]].
  - unfold parse_hypo71_picks. rewrite Hvalid. cbn [try_except bind].
    unfold open. rewrite Hfile. cbn [bind].
    exact (parse_hypo71_picks_loop_groups errors (readlines text) Hdec [] []).
  - unfold events_by_separator. rewrite length_map. apply line_groups_length.
Qed.

Lemma separators_close_events_witness :
  let text := ("NAPO P 1 240101123015.00" ++ nl ++ "10" ++ nl
               ++ "NAPO     240101123115.00       17.30 S 2" ++ nl
               ++ "10" ++ nl)%string in
  let fs := single_file "picks.hyp" text in
  exists events,
    parse_hypo71_picks fs "picks.hyp" default_errors = Ok events
    /\ List.length events = count_separators (readlines text)
    /\ events = events_by_separator default_errors (readlines text).
Proof.
  intros text fs.
  apply (separators_close_events fs "picks.hyp" text default_errors).
  - reflexivity.
  - vm_compute. reflexivity.
  - intros line Hin. vm_compute in Hin.
    destruct Hin as [<-|[<-|[<-|[<-|[]]]]];
      eexists; vm_compute; reflexivity.
Defined.

(** C3 as stated fails: a valid file with one separator line gives one
    event, not two; the pick of the line after the separator is in no
    event. *)
Lemma one_separator_one_event :
  let text := ("NAPO P 1 240101123015.00" ++ nl ++ "10" ++ nl
               ++ "NAPO P 1 240101123115.00" ++ nl)%string in
  let fs := single_file "picks.hyp" text in
  _is_hypo71_picks fs "picks.hyp" = Ok tt
  /\ count_separators (readlines text) = 1%nat
  /\ (exists p, decoded default_errors ("NAPO P 1 240101123115.00" ++ nl)
               = [p])
  /\ exists p,
       parse_hypo71_picks fs "picks.hyp" default_errors = Ok [[p]]
       /\ option_map strftime (time p) = Some "20240101 1230 15.000000".
Proof.
  intros text fs.
  split; [vm_compute; reflexivity|].
  split; [vm_compute; reflexivity|].
  split; [eexists; vm_compute; reflexivity|].
  eexists. split; [vm_compute; reflexivity|].
  vm_compute. reflexivity.
Qed.

(** ** Decimal fields *)

Lemma length_app (s t : string) :
  String.length (s ++ t) = (String.length s + String.length t)%nat.
Proof. induction s as [|c s IH]; simpl; [reflexivity | rewrite IH; reflexivity]. Qed.

Lemma append_assoc (s t u : string) : ((s ++ t) ++ u = s ++ (t ++ u))%string.
Proof. induction s as [|c s IH]; simpl; [reflexivity | rewrite IH; reflexivity]. Qed.

Lemma all_digits_app (s t : string) :
  all_digits (s ++ t) = all_digits s && all_digits t.
Proof.
  induction s as [|c s IH]; simpl; [reflexivity|].
  rewrite IH, andb_assoc. reflexivity.
Qed.

Lemma digits_value_app (s t : string) (acc : Z) :
  digits_value acc (s ++ t) = digits_value (digits_value acc s) t.
Proof. revert acc. induction s as [|c s IH]; intros acc; simpl; auto. Qed.

Lemma has_char_app (c : ascii) (s t : string) :
  has_char c (s ++ t) = has_char c s || has_char c t.
Proof.
  induction s as [|x s IH]; simpl; [reflexivity|].
  rewrite IH, orb_assoc. reflexivity.
Qed.

Lemma has_char_spaces (n : nat) : has_char newline (spaces n) = false.
Proof. induction n as [|n IH]; simpl; auto. Qed.

Lemma digit_char_spec (d : Z) :
  0 <= d <= 9 ->
  isdigit (digit_char d) = true /\ digit_value (digit_char d) = d.
Proof.
  intros Hd.
  assert (H : d = 0 \/ d = 1 \/ d = 2 \/ d = 3 \/ d = 4 \/ d = 5 \/ d = 6
              \/ d = 7 \/ d = 8 \/ d = 9) by lia.
  repeat (destruct H as [->|H]; [split; reflexivity|]).
  subst d. split; reflexivity.
Qed.

Lemma isdigit_not_newline (c : ascii) :
  isdigit c = true -> Ascii.eqb c newline = false.
Proof.
  intros H. destruct (Ascii.eqb c newline) eqn:E; [|reflexivity].
  apply Ascii.eqb_eq in E. subst c. discriminate H.
Qed.

Lemma all_digits_no_newline (s : string) :
  all_digits s = true -> has_char newline s = false.
Proof.
  induction s as [|c s IH]; simpl; [reflexivity|].
  intros H. apply andb_true_iff in H. destruct H as [Hc Hs].
  rewrite (isdigit_not_newline c Hc), (IH Hs). reflexivity.
Qed.

(** [dec_fixed w n] is a field of [w] digits that reads back as [n], when
    [n] has no more digits than that. *)
Lemma dec_fixed_field (w : nat) (n : Z) :
  0 <= n < 10 ^ Z.of_nat w -> field_of w n (dec_fixed w n).
Proof.
  revert n. induction w as [|w IH]; intros n Hn.
  - simpl in Hn. assert (n = 0) by lia. subst n. repeat split.
  - rewrite Nat2Z.inj_succ, Z.pow_succ_r in Hn by lia.
    assert (Hq : 0 <= n / 10 < 10 ^ Z.of_nat w).
    { split; [apply Z.div_pos; lia|].
      apply Z.div_lt_upper_bound; lia. }
    destruct (IH (n / 10) Hq) as (Hlen & Hdig & Hval).
    pose proof (Z.mod_pos_bound n 10 ltac:(lia)) as Hr.
    destruct (digit_char_spec (n mod 10) ltac:(lia)) as [Hd Hv].
    cbn [dec_fixed]. repeat split.
    + rewrite length_app, Hlen. simpl. lia.
    + rewrite all_digits_app, Hdig. simpl. rewrite Hd. reflexivity.
    + rewrite digits_value_app, Hval. cbn [digits_value]. rewrite Hv.
      pose proof (Z.div_mod n 10 ltac:(lia)). lia.
Qed.

Lemma dec_width_le (fuel w : nat) (n : Z) :
  (1 <= w)%nat -> n < 10 ^ Z.of_nat w -> (dec_width fuel n <= w)%nat.
Proof.
  revert w n. induction fuel as [|fuel IH]; intros w n Hw Hn; simpl; [lia|].
  destruct (n <? 10) eqn:H10; [lia|].
  apply Z.ltb_ge in H10.
  destruct w as [|[|w]]; [lia| simpl in Hn; lia |].
  apply le_n_S. apply IH; [lia|].
  rewrite Nat2Z.inj_succ, Z.pow_succ_r in Hn by lia.
  apply Z.div_lt_upper_bound; lia.
Qed.

(** What [%0wd] prints for a number of at most [w] digits. *)
Lemma zfill_field (w : nat) (n : Z) :
  (1 <= w)%nat -> 0 <= n < 10 ^ Z.of_nat w -> field_of w n (zfill w n).
Proof.
  intros Hw Hn. unfold zfill.
  rewrite (Nat.max_l w) by (apply dec_width_le; [exact Hw | lia]).
  apply dec_fixed_field. exact Hn.
Qed.

(** A year from 1000 on is printed with its four digits. *)
Lemma decimal_year_field (y : Z) :
  1000 <= y <= 9999 -> field_of 4 y (decimal y).
Proof.
  intros Hy. unfold decimal.
  assert (Hfuel : (4 <= Z.to_nat (Z.log2 y))%nat).
  { assert (Z.log2 512 <= Z.log2 y) by (apply Z.log2_le_mono; lia).
    change (Z.log2 512) with 9 in H. lia. }
  destruct (Z.to_nat (Z.log2 y)) as [|[|[|[|fuel]]]]; try lia.
  assert (dec_width (S (S (S (S fuel)))) y = 4%nat) as ->.
  { cbn [dec_width].
    assert (H1 : (y <? 10) = false) by (apply Z.ltb_ge; lia).
    assert (H2 : (y / 10 <? 10) = false)
      by (apply Z.ltb_ge; apply Z.div_le_lower_bound; lia).
    assert (H3 : (y / 10 / 10 <? 10) = false).
    { apply Z.ltb_ge. rewrite Z.div_div by lia.
      apply Z.div_le_lower_bound; lia. }
    assert (H4 : (y / 10 / 10 / 10 <? 10) = true).
    { apply Z.ltb_lt. rewrite !Z.div_div by lia.
      apply Z.div_lt_upper_bound; lia. }
    rewrite H1, H2, H3, H4. reflexivity. }
  apply dec_fixed_field. simpl. lia.
Qed.

(** ** Calendar fields *)

(** One month of the case analysis below: the tables are read at the
    month, the leap day is added or not, and the comparison decides between
    the month and the one before. *)
Ltac month_case :=
  match goal with
  | Hm : ?month = _ |- _ => rewrite Hm in *; clear Hm
  end;
  match goal with
  | leapyear : bool |- _ => destruct leapyear
  end;
  repeat match goal with
  | |- context [nth ?k ?l 0] =>
      let v := eval vm_compute in (nth k l 0) in change (nth k l 0) with v
  | |- context [if ?c then 1 else 0] =>
      let v := eval vm_compute in (if c then 1 else 0) in
      change (if c then 1 else 0) with v
  end;
  match goal with
  | |- context [?a <? ?b] =>
      let Hpre := fresh "Hpre" in
      destruct (a <? b) eqn:Hpre;
      [apply Z.ltb_lt in Hpre | apply Z.ltb_ge in Hpre];
      cbv beta iota zeta; lia
  end.

Lemma ord2ymd_bounds (o : Z) :
  1 <= o <= MAXORDINAL ->
  let '(y, m, d) := ord2ymd o in
  1 <= y <= 9999 /\ 1 <= m <= 12 /\ 1 <= d <= 31.
Proof.
  unfold MAXORDINAL. intros Ho. unfold ord2ymd, DI400Y, DI100Y, DI4Y.
  cbv zeta.
  set (n0 := o - 1).
  set (n400 := n0 / 146097). set (r1 := n0 mod 146097).
  set (n100 := r1 / 36524). set (r2 := r1 mod 36524).
  set (n4 := r2 / 1461). set (r3 := r2 mod 1461).
  set (n1 := r3 / 365). set (n := r3 mod 365).
  assert (Hn0 : 0 <= n0 <= 3652058) by (unfold n0; lia).
  pose proof (Z.div_mod n0 146097 ltac:(lia)) as E1.
  pose proof (Z.mod_pos_bound n0 146097 ltac:(lia)) as B1.
  pose proof (Z.div_mod r1 36524 ltac:(lia)) as E2.
  pose proof (Z.mod_pos_bound r1 36524 ltac:(lia)) as B2.
  pose proof (Z.div_mod r2 1461 ltac:(lia)) as E3.
  pose proof (Z.mod_pos_bound r2 1461 ltac:(lia)) as B3.
  pose proof (Z.div_mod r3 365 ltac:(lia)) as E4.
  pose proof (Z.mod_pos_bound r3 365 ltac:(lia)) as B4.
  fold n400 r1 in E1, B1. fold n100 r2 in E2, B2.
  fold n4 r3 in E3, B3. fold n1 n in E4, B4.
  assert (H400 : 0 <= n400) by (apply Z.div_pos; lia).
  assert (H100 : 0 <= n100) by (apply Z.div_pos; lia).
  assert (H4 : 0 <= n4) by (apply Z.div_pos; lia).
  assert (H1 : 0 <= n1) by (apply Z.div_pos; lia).
  clearbody n400 r1 n100 r2 n4 r3 n1 n. clear Ho.
  destruct ((n1 =? 4) || (n100 =? 4)) eqn:Hlast.
  - apply orb_true_iff in Hlast.
    assert (n1 = 4 \/ n100 = 4)
      by (destruct Hlast as [H|H]; apply Z.eqb_eq in H; auto).
    lia.
  - apply orb_false_iff in Hlast. destruct Hlast as [Hn1 Hn100].
    apply Z.eqb_neq in Hn1. apply Z.eqb_neq in Hn100.
    rewrite Z.shiftr_div_pow2 by lia. change (2 ^ 5) with 32.
    pose proof (Z.div_mod (n + 50) 32 ltac:(lia)) as E5.
    pose proof (Z.mod_pos_bound (n + 50) 32 ltac:(lia)) as B5.
    set (month := (n + 50) / 32) in *. clearbody month.
    set (leapyear := (n1 =? 3) && (negb (n4 =? 24) || (n100 =? 3))).
    clearbody leapyear.
    assert (Hm : month = 1 \/ month = 2 \/ month = 3 \/ month = 4
                 \/ month = 5 \/ month = 6 \/ month = 7 \/ month = 8
                 \/ month = 9 \/ month = 10 \/ month = 11 \/ month = 12)
      by lia.
    assert (Hy : 1 <= n400 * 400 + 1 + n100 * 100 + n4 * 4 + n1 <= 9999)
      by lia.
    repeat (destruct Hm as [Hm|Hm]; [month_case|]). month_case.
Qed.

Lemma date_fields_bounds (t : datetime) :
  in_range t = true ->
  1 <= year t <= 9999 /\ 1 <= month t <= 12 /\ 1 <= day t <= 31.
Proof.
  unfold in_range, year, month, day. intros H.
  apply andb_true_iff in H. destruct H as [H1 H2].
  apply Z.leb_le in H1. apply Z.leb_le in H2.
  pose proof (ord2ymd_bounds (toordinal t) (conj H1 H2)) as Hb.
  destruct (ord2ymd (toordinal t)) as [[y m] d]. exact Hb.
Qed.

Lemma time_fields_bounds (t : datetime) :
  0 <= hour t < 24 /\ 0 <= minute t < 60 /\ 0 <= second t < 60
  /\ 0 <= microsecond t < 1000000.
Proof.
  unfold hour, minute, second, microsecond, US_PER_SECOND.
  repeat split; apply Z.mod_pos_bound; lia.
Qed.

(** The text of [strftime] is a time stamp of the time, from the year 1000
    on. *)
Lemma strftime_is_time_stamp (t : datetime) :
  in_range t = true -> 1000 <= year t ->
  is_time_stamp t (strftime t) /\ String.length (strftime t) = 23%nat
  /\ has_char newline (strftime t) = false.
Proof.
  intros Hrange Hyear.
  destruct (date_fields_bounds t Hrange) as (Hy & Hm & Hd).
  destruct (time_fields_bounds t) as (Hh & Hmi & Hs & Hus).
  pose proof (decimal_year_field (year t) ltac:(lia)) as FY.
  pose proof (zfill_field 2 (month t) ltac:(lia) ltac:(simpl; lia)) as FM.
  pose proof (zfill_field 2 (day t) ltac:(lia) ltac:(simpl; lia)) as FD.
  pose proof (zfill_field 2 (hour t) ltac:(lia) ltac:(simpl; lia)) as Fh.
  pose proof (zfill_field 2 (minute t) ltac:(lia) ltac:(simpl; lia)) as Fm.
  pose proof (zfill_field 2 (second t) ltac:(lia) ltac:(simpl; lia)) as Fs.
  pose proof (zfill_field 6 (microsecond t) ltac:(lia) ltac:(simpl; lia))
    as Ff.
  split; [|split].
  - exists (decimal (year t)), (zfill 2 (month t)), (zfill 2 (day t)),
      (zfill 2 (hour t)), (zfill 2 (minute t)), (zfill 2 (second t)),
      (zfill 6 (microsecond t)).
    split; [reflexivity|]. repeat (split; [assumption|]). assumption.
  - unfold strftime.
    destruct FY as (LY & _), FM as (LM & _), FD as (LD & _), Fh as (Lh & _),
      Fm as (Lm & _), Fs as (Ls & _), Ff as (Lf & _).
    rewrite !length_app, LY, LM, LD, Lh, Lm, Ls, Lf. reflexivity.
  - unfold strftime.
    destruct FY as (_ & DY & _), FM as (_ & DM & _), FD as (_ & DD & _),
      Fh as (_ & Dh & _), Fm as (_ & Dm & _), Fs as (_ & Ds & _),
      Ff as (_ & Df & _).
    rewrite !has_char_app.
    rewrite (all_digits_no_newline _ DY), (all_digits_no_newline _ DM),
      (all_digits_no_newline _ DD), (all_digits_no_newline _ Dh),
      (all_digits_no_newline _ Dm), (all_digits_no_newline _ Ds),
      (all_digits_no_newline _ Df).
    reflexivity.
Qed.

(** C7, as the code has it.  For every Pick whose time is set (to a
    datetime of the year 1000 or later), the emitter returns, without
    raising, one text made of the station followed by blanks up to width 6
    (the text first: it is left-justified), [? ? ?], the phase, the time
    stamp [YYYYMMDD HHMM SS.ffffff] (digits only, of widths 4, 2, 2, 2, 2, 2
    and 6, that read back as the fields of the time), [GAU], the error as
    the float is printed, and [1.0 1.0 1.0]; it adds no newline of its
    own. *)
Theorem to_nlloc_layout :
  forall (float_repr : float -> string) (p : Pick) (t : datetime),
  time p = Some t -> in_range t = true -> 1000 <= year t ->
  exists stamp line,
    to_nlloc float_repr p = Ok line
    /\ line = (station p ++ spaces (6 - String.length (station p))
               ++ " ? ? ? " ++ phase p ++ " " ++ stamp ++ " GAU "
               ++ float_repr (error p) ++ " 1.0 1.0 1.0")%string
    /\ is_time_stamp t stamp
    /\ String.length stamp = 23%nat
    /\ (has_char newline (station p) = false ->
        has_char newline (phase p) = false ->
        has_char newline (float_repr (error p)) = false ->
        has_char newline line = false).
Proof.
  intros float_repr p t Htime Hrange Hyear.
  destruct (strftime_is_time_stamp t Hrange Hyear) as (Hstamp & Hlen & Hnl).
  exists (strftime t). eexists.
  split; [unfold to_nlloc; rewrite Htime; reflexivity|].
  split.
  { unfold ljust. rewrite append_assoc. reflexivity. }
  split; [exact Hstamp|]. split; [exact Hlen|].
  intros Hs Hp He. unfold ljust.
  rewrite !has_char_app, Hs, Hp, He, Hnl, has_char_spaces. reflexivity.
Qed.

Lemma to_nlloc_layout_witness :
  let p := mk_Pick "NAP" " " "P" " " 1 (S754_zero false)
             (Some (mk_datetime 63839795415000000)) in
  exists stamp line,
    to_nlloc (fun _ => "0.02") p = Ok line
    /\ line = (station p ++ spaces (6 - String.length (station p))
               ++ " ? ? ? " ++ phase p ++ " " ++ stamp ++ " GAU "
               ++ "0.02" ++ " 1.0 1.0 1.0")%string
    /\ is_time_stamp (mk_datetime 63839795415000000) stamp
    /\ String.length stamp = 23%nat
    /\ (has_char newline (station p) = false ->
        has_char newline (phase p) = false ->
        has_char newline "0.02" = false ->
        has_char newline line = false).
Proof.
  intros p.
  apply (to_nlloc_layout (fun _ => "0.02") p
           (mk_datetime 63839795415000000)).
  - reflexivity.
  - vm_compute. reflexivity.
  - vm_compute. discriminate.
Defined.

(** C7 as stated fails: the station is not left-padded, its blanks come
    after it; and a Pick whose time has not been set makes the emitter
    raise. *)
Lemma station_is_padded_on_the_right :
  let p := mk_Pick "NAP" " " "P" " " 1 (S754_zero false)
             (Some (mk_datetime 63839795415000000)) in
  to_nlloc (fun _ => "0.02") p
  = Ok "NAP    ? ? ? P 20240101 1230 15.000000 GAU 0.02 1.0 1.0 1.0"
  /\ left_padded 6 (station p) = "   NAP"
  /\ to_nlloc (fun _ => "0.02") p
     <> Ok (left_padded 6 (station p)
            ++ " ? ? ? P 20240101 1230 15.000000 GAU 0.02 1.0 1.0 1.0")
  /\ to_nlloc (fun _ => "0.02")
       (mk_Pick "" "" "" "" 0 (S754_zero false) None)
     = Raise AttributeError.
Proof.
  intros p.
  split; [vm_compute; reflexivity|].
  split; [reflexivity|].
  split; [vm_compute; discriminate|].
  reflexivity.
Qed.

(** ** What holds of every emitted pick *)

Lemma substring_length_le (n m : nat) (s : string) :
  (String.length (String.substring n m s) <= m)%nat.
Proof.
  revert n m. induction s as [|c s IH]; intros [|n] [|m]; simpl;
    try lia.
  - specialize (IH 0%nat m). lia.
  - apply IH.
  - apply IH.
Qed.

(** The quality read from one character is a digit's value, or 4. *)
Lemma read_quality_char (c : ascii) :
  match read_quality (String c "") with
  | Ok q => (0 <=? q) && (q <=? 9)
  | Raise _ => false
  end = true.
Proof.
  destruct c as [[] [] [] [] [] [] [] []]; vm_compute; reflexivity.
Qed.

Lemma read_quality_slice (line : string) (a : nat) (q : Z) :
  read_quality (slice line a (S a)) = Ok q -> 0 <= q <= 9.
Proof.
  unfold slice. replace (S a - a)%nat with 1%nat by lia.
  pose proof (substring_length_le a 1 line) as Hlen.
  destruct (String.substring a 1 line) as [|c [|c' s]]; simpl in Hlen;
    try lia; intros H.
  - vm_compute in H. injection H as <-. lia.
  - pose proof (read_quality_char c) as Hc. rewrite H in Hc.
    apply andb_true_iff in Hc. destruct Hc as [H0 H9].
    apply Z.leb_le in H0. apply Z.leb_le in H9. lia.
Qed.

Lemma list_getitem_Ok_bound {A : Type} (l : list A) (i : Z) (a : A) :
  0 <= i -> list_getitem l i = Ok a -> i < Z.of_nat (List.length l).
Proof.
  intros Hi. unfold list_getitem.
  destruct (i <? 0) eqn:Hneg; [apply Z.ltb_lt in Hneg; lia|].
  rewrite Hneg.
  destruct (nth_error l (Z.to_nat i)) as [x|] eqn:Hnth; [|discriminate].
  intros _.
  assert (Z.to_nat i < List.length l)%nat
    by (apply nth_error_Some; congruence).
  lia.
Qed.

(** Every Pick the decoder emits, with a table of five errors, has a
    quality in [0, 4], the error the table has for that quality, and a
    time. *)
Lemma emitted_pick_invariant (line : string) (errors : list float)
    (picks : list Pick) :
  List.length errors = 5%nat ->
  _parse_hypo71_pick_line line errors = Ok (Some picks) ->
  forall p, In p picks ->
    0 <= quality p <= 4
    /\ list_getitem errors (quality p) = Ok (error p)
    /\ exists t, time p = Some t /\ in_range t = true.
Proof.
  intros Hlen Hdec p Hin.
  apply decoder_inv in Hdec.
  destruct Hdec as (_ & _ & q & e & t & Hq & He & Ht & Hpicks).
  pose proof (read_quality_slice _ _ _ Hq) as Hq09.
  pose proof (list_getitem_Ok_bound _ _ _ (proj1 Hq09) He) as Hq5.
  destruct (primary_time_inv _ _ Ht)
    as (_ & _ & _ & _ & _ & _ & _ & _ & _ & _ & _ & Hrange).
  assert (Hfirst : forall p', In p' (kept_first line (first_pick line q e t)) ->
            0 <= quality p' <= 4
            /\ list_getitem errors (quality p') = Ok (error p')
            /\ exists t', time p' = Some t' /\ in_range t' = true).
  { intros p' Hp'. unfold kept_first in Hp'.
    destruct (String.eqb (slice (chomp line) 5 6) "P"); [|contradiction].
    destruct Hp' as [<-|[]]. cbn [first_pick quality error time].
    split; [lia|]. split; [exact He|]. exists t; auto. }
  destruct Hpicks as [(_ & ->) | (_ & q2 & e2 & t2 & Hq2 & He2 & Ht2 & ->)].
  - apply Hfirst; exact Hin.
  - apply in_app_or in Hin. destruct Hin as [Hin|[<-|[]]];
      [apply Hfirst; exact Hin|].
    pose proof (read_quality_slice _ _ _ Hq2) as Hq09'.
    pose proof (list_getitem_Ok_bound _ _ _ (proj1 Hq09') He2) as Hq5'.
    destruct (second_time_inv _ _ _ Ht2) as (_ & _ & _ & _ & _ & Hrange2).
    cbn [second_pick quality error time].
    split; [lia|]. split; [exact He2|]. exists t2; auto.
Qed.

(** ** What the validator does with the lines it can read *)



(** ** Further properties of the validator *)


(** X2.  A line the segmenter takes for a separator (blanks around [10])
    is passed over by the validator and gives no pick in the decoder,
    whatever the table of errors. *)
Theorem separator_line_is_passed_over :
  forall (line : string),
  is_separator line = true ->
  (forall errors, _parse_hypo71_pick_line line errors = Ok None)
  /\ (forall pick_file fp,
        _is_hypo71_picks_loop pick_file (line :: fp)
        = _is_hypo71_picks_loop pick_file fp).
Proof.
  intros line Hsep.
  pose proof (separator_is_skipped line Hsep) as Hskip.
  split.
  - intros errors. apply decoder_skips. exact Hskip.
  - intros pick_file fp. rewrite _is_hypo71_picks_loop_cons, Hskip.
    reflexivity.
Qed.

Lemma separator_line_is_passed_over_witness :
  (forall errors,
     _parse_hypo71_pick_line (String "009" "  10 " ++ nl) errors = Ok None)
  /\ (forall pick_file fp,
        _is_hypo71_picks_loop pick_file ((String "009" "  10 " ++ nl) :: fp)
        = _is_hypo71_picks_loop pick_file fp).
Proof.
  apply (separator_line_is_passed_over (String "009" "  10 " ++ nl)).
  vm_compute. reflexivity.
Defined.

(** ** The quality character *)

Lemma slice_one (s : string) (a : nat) :
  slice s a (S a) = match String.get a s with
                    | Some c => String c ""
                    | None => ""
                    end.
Proof.
  unfold slice. replace (S a - a)%nat with 1%nat by lia.
  revert a. induction s as [|c s IH]; intros [|a]; simpl; try reflexivity.
  - destruct s; reflexivity.
  - apply IH.
Qed.

Lemma read_quality_of_char (c : ascii) :
  read_quality (String c "") = Ok (if isdigit c then digit_value c else 4).
Proof.
  destruct c as [[] [] [] [] [] [] [] []]; vm_compute; reflexivity.
Qed.

(** X3.  The quality of a pick is the value of the digit at the quality
    position, and 4 when the character there is not a digit or the line
    ends before it. *)
Theorem quality_is_digit_or_4 :
  forall (line : string) (a : nat),
  read_quality (slice line a (S a))
  = Ok match String.get a line with
       | Some c => if isdigit c then digit_value c else 4
       | None => 4
       end.
Proof.
  intros line a. rewrite slice_one.
  destruct (String.get a line) as [c|].
  - apply read_quality_of_char.
  - vm_compute. reflexivity.
Qed.

(** ** The shape of a decoded line *)

(** X4.  The picks of a line are the first pick when the phase is [P], then
    the second pick when the second-pick seconds field is not blank,
    whatever the phase of that second pick; all have the station of the
    line. *)
Theorem decoded_picks_shape :
  forall (line : string) (errors : list float) (picks : list Pick),
  _parse_hypo71_pick_line line errors = Ok (Some picks) ->
  List.length picks
  = ((if String.eqb (slice (chomp line) 5 6) "P" then 1 else 0)
     + (if String.eqb (strip (stime_field line)) "" then 0 else 1))%nat
  /\ (forall p, In p picks -> station p = strip (slice (chomp line) 0 4))
  /\ (String.eqb (slice (chomp line) 5 6) "P" = true ->
      exists p, hd_error picks = Some p
        /\ flag p = slice (chomp line) 4 5 /\ phase p = "P"
        /\ polarity p = slice (chomp line) 6 7)
  /\ (strip (stime_field line) <> "" ->
      exists p, In p picks
        /\ flag p = slice (chomp line) 36 37
        /\ phase p = slice (chomp line) 37 38
        /\ polarity p = slice (chomp line) 38 39).
Proof.
  intros line errors picks Hdec.
  apply decoder_inv in Hdec.
  destruct Hdec as (_ & _ & q & e & t & _ & _ & _ & Hpicks).
  assert (Hkept : forall p, In p (kept_first line (first_pick line q e t)) ->
            p = first_pick line q e t).
  { intros p Hp. unfold kept_first in Hp.
    destruct (String.eqb (slice (chomp line) 5 6) "P"); [|contradiction].
    destruct Hp as [<-|[]]. reflexivity. }
  destruct Hpicks as [(Hblank & ->) | (Hfull & q2 & e2 & t2 & _ & _ & _ & ->)].
  - rewrite Hblank. cbn [String.eqb]. repeat split.
    + unfold kept_first.
      destruct (String.eqb (slice (chomp line) 5 6) "P"); reflexivity.
    + intros p Hp. rewrite (Hkept p Hp). reflexivity.
    + intros HP. unfold kept_first. rewrite HP.
      exists (first_pick line q e t). cbn.
      apply String.eqb_eq in HP. rewrite HP. auto.
    + intros Habs. contradiction.
  - apply String.eqb_neq in Hfull. rewrite Hfull. repeat split.
    + rewrite List.length_app. unfold kept_first.
      destruct (String.eqb (slice (chomp line) 5 6) "P"); reflexivity.
    + intros p Hp. apply in_app_or in Hp. destruct Hp as [Hp|[<-|[]]].
      * rewrite (Hkept p Hp). reflexivity.
      * reflexivity.
    + intros HP. unfold kept_first. rewrite HP.
      exists (first_pick line q e t). cbn.
      apply String.eqb_eq in HP. rewrite HP. auto.
    + intros _. exists (second_pick line q2 e2 t2).
      split; [apply in_or_app; right; left; reflexivity|]. auto.
Qed.

(** ** The exceptions of the decoder and of the segmenter *)

Lemma getitem_raises (s : string) (i : Z) (e : exn) :
  getitem s i = Raise e -> e = IndexError.
Proof.
  unfold getitem.
  destruct ((if i <? 0 then i + len s else i) <? 0); [congruence|].
  destruct (String.get _ s); congruence.
Qed.

Lemma list_getitem_raises {A : Type} (l : list A) (i : Z) (e : exn) :
  list_getitem l i = Raise e -> e = IndexError.
Proof.
  unfold list_getitem.
  destruct ((if i <? 0 then i + Z.of_nat (List.length l) else i) <? 0);
    [congruence|].
  destruct (nth_error l _); congruence.
Qed.

Lemma decoder_test_raises (line : string) (e : exn) :
  decoder_test line = Raise e -> e = IndexError.
Proof.
  unfold decoder_test. intros H.
  apply bind_Raise_inv in H.
  destruct H as [H | (c5 & _ & H)]; [exact (getitem_raises _ _ _ H)|].
  destruct (Ascii.eqb c5 "P" || Ascii.eqb c5 " "); [|discriminate H].
  apply bind_Raise_inv in H.
  destruct H as [H | (c9 & _ & H)]; [exact (getitem_raises _ _ _ H)|].
  destruct (isdigit c9); [|discriminate H].
  apply bind_Raise_inv in H.
  destruct H as [H | (c20 & _ & H)]; [exact (getitem_raises _ _ _ H)|].
  discriminate H.
Qed.

Lemma int_of_float_raises (x : float) (e : exn) :
  int_of_float x = Raise e -> e = ValueError \/ e = OverflowError.
Proof. destruct x; simpl; intros H; try discriminate H; injection H; auto. Qed.

Lemma check_delta_raises (us : Z) (e : exn) :
  check_delta us = Raise e -> e = OverflowError.
Proof.
  unfold check_delta.
  destruct ((-999999999 <=? us / US_PER_DAY) && (us / US_PER_DAY <=? 999999999));
    congruence.
Qed.

Lemma datetime_add_raises (t : datetime) (d : Z) (e : exn) :
  datetime_add t d = Raise e -> e = OverflowError.
Proof.
  unfold datetime_add.
  destruct (in_range (mk_datetime (micros t + d))); congruence.
Qed.

Lemma timedelta_seconds_raises (x : float) (e : exn) :
  timedelta_seconds x = Raise e -> e = ValueError \/ e = OverflowError.
Proof.
  unfold timedelta_seconds.
  destruct x as [s|s| |s m ex]; try (intros H; injection H; auto).
  - destruct (modf (S754_zero s)) as (ip & num & k).
    destruct (num =? 0).
    + intros H. right. exact (check_delta_raises _ _ H).
    + destruct (modf _) as (ip2 & num2 & k2).
      intros H. right. exact (check_delta_raises _ _ H).
  - destruct (modf (S754_finite s m ex)) as (ip & num & k).
    destruct (num =? 0).
    + intros H. right. exact (check_delta_raises _ _ H).
    + destruct (modf _) as (ip2 & num2 & k2).
      intros H. right. exact (check_delta_raises _ _ H).
Qed.

Lemma strptime_ymd_raises (s : string) (e : exn) :
  strptime_ymd s = Raise e -> e = ValueError.
Proof.
  unfold strptime_ymd.
  destruct (re_ymd s) as [|[[[y m] d] rest] alts]; [congruence|].
  destruct rest; [|congruence].
  intros H.
  apply bind_Raise_inv in H.
  destruct H as [H | (yy & _ & H)];
    [exact (int_of_str_raises_ValueError _ _ H)|].
  apply bind_Raise_inv in H.
  destruct H as [H | (mm & _ & H)];
    [exact (int_of_str_raises_ValueError _ _ H)|].
  apply bind_Raise_inv in H.
  destruct H as [H | (dd & _ & H)];
    [exact (int_of_str_raises_ValueError _ _ H)|].
  match type of H with (if ?c then _ else _) = _ => destruct c end;
    congruence.
Qed.

Lemma primary_time_raises (timestr : string) (e : exn) :
  primary_time timestr = Raise e -> e = ValueError \/ e = OverflowError.
Proof.
  unfold primary_time. intros H.
  apply bind_Raise_inv in H.
  destruct H as [H | (hour & _ & H)];
    [left; exact (int_of_str_raises_ValueError _ _ H)|].
  apply bind_Raise_inv in H.
  destruct H as [H | (minute & _ & H)];
    [left; exact (int_of_str_raises_ValueError _ _ H)|].
  apply bind_Raise_inv in H.
  destruct H as [H | (seconds & _ & H)];
    [left; exact (float_of_str_raises_ValueError _ _ H)|].
  apply bind_Raise_inv in H.
  destruct H as [H | (ms & _ & H)]; [exact (int_of_float_raises _ _ H)|].
  apply bind_Raise_inv in H.
  destruct H as [H | (t0 & _ & H)];
    [left; exact (strptime_ymd_raises _ _ H)|].
  apply bind_Raise_inv in H.
  destruct H as [H | (d & _ & H)];
    [right; exact (check_delta_raises _ _ H)|].
  right. exact (datetime_add_raises _ _ _ H).
Qed.

Lemma second_time_raises (t : datetime) (stime : string) (e : exn) :
  second_time t stime = Raise e -> e = ValueError \/ e = OverflowError.
Proof.
  unfold second_time. intros H.
  apply bind_Raise_inv in H.
  destruct H as [H | (x & _ & H)];
    [left; exact (float_of_str_raises_ValueError _ _ H)|].
  apply bind_Raise_inv in H.
  destruct H as [H | (d & _ & H)]; [exact (timedelta_seconds_raises _ _ H)|].
  right. exact (datetime_add_raises _ _ _ H).
Qed.

Lemma _parse_hypo71_pick_line_raises (line : string) (errors : list float)
    (e : exn) :
  _parse_hypo71_pick_line line errors = Raise e ->
  e = IndexError \/ e = ValueError \/ e = OverflowError.
Proof.
  revert line errors e.
  intros line errors e. unfold _parse_hypo71_pick_line.
  fold (chomp line). fold (skipped line). fold (time_string line).
  fold (stime_field line).
  destruct (skipped line); [discriminate|].
  intros H.
  apply bind_Raise_inv in H.
  destruct H as [H | (ok & _ & H)]; [left; exact (decoder_test_raises _ _ H)|].
  destruct ok; cbn [negb] in H; [|discriminate H].
  apply bind_Raise_inv in H.
  destruct H as [H | (q & _ & H)].
  { destruct (read_quality_total (slice (chomp line) 7 8)) as [q Hq].
    congruence. }
  apply bind_Raise_inv in H.
  destruct H as [H | (err & _ & H)]; [left; exact (list_getitem_raises _ _ _ H)|].
  apply bind_Raise_inv in H.
  destruct H as [H | (t & _ & H)]; [right; exact (primary_time_raises _ _ H)|].
  cbv beta iota zeta in H.
  destruct (String.eqb (strip (stime_field line)) ""); [discriminate H|].
  apply bind_Raise_inv in H.
  destruct H as [H | (q2 & _ & H)].
  { destruct (read_quality_total (slice (chomp line) 39 40)) as [q2 Hq2].
    congruence. }
  apply bind_Raise_inv in H.
  destruct H as [H | (err2 & _ & H)];
    [left; exact (list_getitem_raises _ _ _ H)|].
  apply bind_Raise_inv in H.
  destruct H as [H | (t2 & _ & H)]; [right; exact (second_time_raises _ _ _ H)|].
  discriminate H.
Qed.

(** X5.  The decoder raises nothing but [IndexError] (a tested position
    beyond the end of the line, a quality beyond the table), [ValueError]
    and [OverflowError] (a time that cannot be built); and it raises each
    of the three: on a quality digit 7, on a letter in the hour, on
    seconds that make more days than a [timedelta] holds. *)
Theorem decoder_raises_only :
  (forall (line : string) (errors : list float) (e : exn),
     _parse_hypo71_pick_line line errors = Raise e -> decoder_exception e)
  /\ _parse_hypo71_pick_line "NAPO P 7 240101123015.00" default_errors
     = Raise IndexError
  /\ _parse_hypo71_pick_line "NAPO P 1 2401011a3015.00" default_errors
     = Raise ValueError
  /\ _parse_hypo71_pick_line "NAPO P 1 240101123099e99" default_errors
     = Raise OverflowError.
Proof.
  split; [exact _parse_hypo71_pick_line_raises|].
  split; [vm_compute; reflexivity|].
  split; vm_compute; reflexivity.
Qed.

(** The first line on which the decoder raises ends the segmenter's loop
    with that exception. *)
Lemma parse_hypo71_picks_loop_first_failure (errors : list float)
    (pre : list string) (line : string) (post : list string) (e : exn) :
  (forall l, In l pre -> exists r, _parse_hypo71_pick_line l errors = Ok r) ->
  _parse_hypo71_pick_line line errors = Raise e ->
  forall all_picks picks,
  parse_hypo71_picks_loop errors (pre ++ line :: post)%list all_picks picks
  = Raise e.
Proof.
  induction pre as [|l pre IH]; intros Hpre Hline all_picks picks.
  - cbn [app]. rewrite parse_hypo71_picks_loop_cons, Hline. reflexivity.
  - cbn [app]. rewrite parse_hypo71_picks_loop_cons.
    destruct (Hpre l (or_introl eq_refl)) as [r ->]. cbn [bind].
    apply IH; [|exact Hline].
    intros x Hx. apply Hpre. right. exact Hx.
Qed.

(** X6.  In a file that passes validation, the first line on which the
    decoder raises ends [parse_hypo71_picks] with that very exception, also
    when the line comes after the last separator, where its picks would
    not have been kept. *)
Theorem segmenter_raises_first_failure :
  forall (fs : FileSystem) (pick_file text : string) (errors : list float)
         (pre : list string) (line : string) (post : list string) (e : exn),
  fs pick_file = Some text ->
  _is_hypo71_picks fs pick_file = Ok tt ->
  readlines text = (pre ++ line :: post)%list ->
  (forall l, In l pre -> exists r, _parse_hypo71_pick_line l errors = Ok r) ->
  _parse_hypo71_pick_line line errors = Raise e ->
  parse_hypo71_picks fs pick_file errors = Raise e.
Proof.
  intros fs pick_file text errors pre line post e Hfile Hvalid Hlines Hpre
    Hline.
  unfold parse_hypo71_picks. rewrite Hvalid. cbn [try_except bind].
  unfold open. rewrite Hfile. cbn [bind]. rewrite Hlines.
  apply parse_hypo71_picks_loop_first_failure; assumption.
Qed.

Lemma segmenter_raises_first_failure_witness :
  parse_hypo71_picks
    (single_file "picks.hyp"
       ("NAPO P 1 240101123015.00" ++ nl ++ "10" ++ nl
        ++ "NAPO P 1 2401011a3015.00" ++ nl))
    "picks.hyp" default_errors
  = Raise ValueError.
Proof.
  apply (segmenter_raises_first_failure
           (single_file "picks.hyp"
              ("NAPO P 1 240101123015.00" ++ nl ++ "10" ++ nl
               ++ "NAPO P 1 2401011a3015.00" ++ nl))
           "picks.hyp"
           ("NAPO P 1 240101123015.00" ++ nl ++ "10" ++ nl
            ++ "NAPO P 1 2401011a3015.00" ++ nl)
           default_errors
           [("NAPO P 1 240101123015.00" ++ nl)%string; ("10" ++ nl)%string]
           ("NAPO P 1 2401011a3015.00" ++ nl)%string []).
  - reflexivity.
  - vm_compute. reflexivity.
  - vm_compute. reflexivity.
  - intros l Hl. destruct Hl as [<-|[<-|[]]]; eexists; vm_compute; reflexivity.
  - vm_compute. reflexivity.
Defined.

(** ** The output of a run *)








(** ** How a run can fail *)









(** ** Instances of the shape of a decoded line and of the format
    error *)

Lemma decoded_picks_shape_witness :
  let line := "NAPO P 1 240101123015.00       17.30 S 2" in
  let picks :=
    [first_pick line 1 (nth 1 default_errors (S754_zero false))
       (mk_datetime 63839795415000000);
     second_pick line 2 (nth 2 default_errors (S754_zero false))
       (mk_datetime 63839795417300000)] in
  List.length picks
  = ((if String.eqb (slice (chomp line) 5 6) "P" then 1 else 0)
     + (if String.eqb (strip (stime_field line)) "" then 0 else 1))%nat
  /\ (forall p, In p picks -> station p = strip (slice (chomp line) 0 4))
  /\ (String.eqb (slice (chomp line) 5 6) "P" = true ->
      exists p, hd_error picks = Some p
        /\ flag p = slice (chomp line) 4 5 /\ phase p = "P"
        /\ polarity p = slice (chomp line) 6 7)
  /\ (strip (stime_field line) <> "" ->
      exists p, In p picks
        /\ flag p = slice (chomp line) 36 37
        /\ phase p = slice (chomp line) 37 38
        /\ polarity p = slice (chomp line) 38 39).
Proof.
  intros line picks.
  apply (decoded_picks_shape line default_errors picks).
  vm_compute. reflexivity.
Defined.



(** ** One line of output for each pick *)

Lemma has_char_remove_char (c : ascii) (s : string) :
  has_char c (remove_char c s) = false.
Proof.
  induction s as [|x s IH]; [reflexivity|]. cbn [remove_char].
  destruct (Ascii.eqb x c) eqn:E; [exact IH|].
  cbn [has_char]. rewrite E, IH. reflexivity.
Qed.

Lemma has_char_substring (c : ascii) (s : string) :
  has_char c s = false ->
  forall n m, has_char c (String.substring n m s) = false.
Proof.
  induction s as [|x s IH]; intros H n m.
  - destruct n, m; reflexivity.
  - cbn [has_char] in H. apply orb_false_iff in H. destruct H as [Hx Hs].
    destruct n as [|n], m as [|m]; cbn [String.substring has_char].
    + reflexivity.
    + rewrite Hx. cbn [orb]. apply IH. exact Hs.
    + apply IH. exact Hs.
    + apply IH. exact Hs.
Qed.

Lemma has_char_lstrip_by (sp : ascii -> bool) (c : ascii) (s : string) :
  has_char c s = false -> has_char c (lstrip_by sp s) = false.
Proof.
  induction s as [|x s IH]; intros H; [reflexivity|].
  cbn [lstrip_by]. destruct (sp x); [|exact H].
  cbn [has_char] in H. apply orb_false_iff in H. apply IH. apply H.
Qed.

Lemma has_char_rstrip_by (sp : ascii -> bool) (c : ascii) (s : string) :
  has_char c s = false -> has_char c (rstrip_by sp s) = false.
Proof.
  induction s as [|x s IH]; intros H; [reflexivity|].
  cbn [has_char] in H. apply orb_false_iff in H. destruct H as [Hx Hs].
  specialize (IH Hs). cbn [rstrip_by].
  destruct (rstrip_by sp s) as [|y r].
  - destruct (sp x); [reflexivity|]. cbn [has_char]. rewrite Hx. reflexivity.
  - cbn [has_char] in *. rewrite Hx. exact IH.
Qed.

Lemma length_lstrip_by (sp : ascii -> bool) (s : string) :
  (String.length (lstrip_by sp s) <= String.length s)%nat.
Proof.
  induction s as [|x s IH]; cbn [lstrip_by String.length]; [lia|].
  destruct (sp x); cbn [String.length]; lia.
Qed.

Lemma length_rstrip_by (sp : ascii -> bool) (s : string) :
  (String.length (rstrip_by sp s) <= String.length s)%nat.
Proof.
  induction s as [|x s IH]; cbn [rstrip_by String.length]; [lia|].
  destruct (rstrip_by sp s) as [|y r].
  - destruct (sp x); cbn [String.length]; lia.
  - cbn [String.length] in *. lia.
Qed.

Lemma all_digits_dec_fixed (w : nat) (n : Z) : all_digits (dec_fixed w n) = true.
Proof.
  revert n. induction w as [|w IH]; intros n; [reflexivity|].
  cbn [dec_fixed]. rewrite all_digits_app, IH. cbn [all_digits andb].
  pose proof (Z.mod_pos_bound n 10 ltac:(lia)) as Hr.
  destruct (digit_char_spec (n mod 10) ltac:(lia)) as [Hd _].
  rewrite Hd. reflexivity.
Qed.

Lemma strftime_no_newline (t : datetime) :
  has_char newline (strftime t) = false.
Proof.
  unfold strftime, decimal, zfill.
  rewrite !has_char_app.
  rewrite !(all_digits_no_newline _ (all_digits_dec_fixed _ _)).
  reflexivity.
Qed.

Lemma chomp_field_no_newline (line : string) (a b : nat) :
  has_char newline (slice (chomp line) a b) = false.
Proof.
  unfold slice, chomp. apply has_char_substring. apply has_char_remove_char.
Qed.

Lemma station_field (line : string) :
  has_char newline (strip (slice (chomp line) 0 4)) = false
  /\ (String.length (strip (slice (chomp line) 0 4)) <= 4)%nat.
Proof.
  unfold strip, strip_by. split.
  - apply has_char_rstrip_by, has_char_lstrip_by, chomp_field_no_newline.
  - pose proof (length_rstrip_by isspace
                  (lstrip_by isspace (slice (chomp line) 0 4))) as H1.
    pose proof (length_lstrip_by isspace (slice (chomp line) 0 4)) as H2.
    pose proof (substring_length_le 0 4 (chomp line)) as H3.
    unfold slice in *. cbn [Nat.sub] in *. lia.
Qed.

Lemma length_spaces (n : nat) : String.length (spaces n) = n.
Proof. induction n as [|n IH]; cbn; [reflexivity | rewrite IH; reflexivity]. Qed.

(** The middle of three texts, cut out by its place and its length. *)
Lemma substring_middle (a b c : string) (n m : nat) :
  n = String.length a -> m = String.length b ->
  String.substring n m (a ++ b ++ c) = b.
Proof.
  intros -> ->. induction a as [|x a IH]; [|exact IH].
  cbn [append String.length]. induction b as [|y b IHb].
  - destruct c; reflexivity.
  - cbn [append String.length String.substring]. rewrite IHb. reflexivity.
Qed.

(** X9.  Every pick the decoder emits is written on one line: the emitter
    does not fail on it and its text holds no line feed, when the printed
    error holds none.  The station has at most 4 characters, so that its
    field is exactly 6 wide: the text begins with it and [ ? ? ? ], and
    the phase starts at column 13.  The phase has at most one character
    (none, when the line of a second pick ends before it); a blank follows
    it and then the time stamp, at column 14 plus the length of the phase:
    15 after a phase, 14 after none. *)
Theorem decoded_pick_takes_one_line :
  forall (float_repr : float -> string) (line : string)
         (errors : list float) (picks : list Pick) (p : Pick),
  _parse_hypo71_pick_line line errors = Ok (Some picks) ->
  In p picks ->
  has_char newline (float_repr (error p)) = false ->
  exists text t,
    to_nlloc float_repr p = Ok text
    /\ time p = Some t
    /\ has_char newline text = false
    /\ (String.length (station p) <= 4)%nat
    /\ String.length (ljust 6 (station p)) = 6%nat
    /\ (String.length (phase p) <= 1)%nat
    /\ slice text 0 13 = (ljust 6 (station p) ++ " ? ? ? ")%string
    /\ slice text 13 (14 + String.length (phase p))
       = (phase p ++ " ")%string
    /\ String.substring (14 + String.length (phase p))
         (String.length (strftime t)) text
       = strftime t.
Proof.
  intros float_repr line errors picks p Hdec Hin Hrepr.
  apply decoder_inv in Hdec.
  destruct Hdec as (_ & _ & q & e & t & _ & _ & _ & Hpicks).
  destruct (station_field line) as [Hnl Hlen].
  assert (Hshape : exists a t', station p = strip (slice (chomp line) 0 4)
            /\ phase p = slice (chomp line) a (S a) /\ time p = Some t').
  { assert (Hfirst : forall x,
              In x (kept_first line (first_pick line q e t)) ->
              x = first_pick line q e t).
    { intros x Hx. unfold kept_first in Hx.
      destruct (String.eqb (slice (chomp line) 5 6) "P"); [|contradiction].
      destruct Hx as [<-|[]]. reflexivity. }
    destruct Hpicks as [(_ & ->) | (_ & q2 & e2 & t2 & _ & _ & _ & ->)].
    - rewrite (Hfirst p Hin). exists 5%nat, t. auto.
    - apply in_app_or in Hin. destruct Hin as [Hin|[<-|[]]].
      + rewrite (Hfirst p Hin). exists 5%nat, t. auto.
      + exists 37%nat, t2. auto. }
  destruct Hshape as (a & t' & Hst & Hph & Ht).
  assert (Hl6 : String.length (ljust 6 (station p)) = 6%nat).
  { unfold ljust. rewrite length_app, length_spaces, Hst. lia. }
  assert (Hl1 : (String.length (phase p) <= 1)%nat).
  { rewrite Hph. unfold slice. replace (S a - a)%nat with 1%nat by lia.
    apply substring_length_le. }
  unfold to_nlloc. rewrite Ht.
  set (A := ljust 6 (station p)) in *.
  set (stamp := strftime t').
  set (R := (" " ++ "GAU " ++ float_repr (error p) ++ " 1.0 1.0 1.0")%string).
  exists (A ++ " ? ? ? " ++ phase p ++ " " ++ stamp ++ R)%string, t'.
  split; [reflexivity|]. split; [reflexivity|].
  split.
  { unfold A, stamp, R, ljust. rewrite !has_char_app, has_char_spaces, Hrepr.
    rewrite strftime_no_newline, Hst, Hnl, Hph, chomp_field_no_newline.
    reflexivity. }
  split; [rewrite Hst; exact Hlen|]. split; [exact Hl6|].
  split; [exact Hl1|].
  split; [|split].
  - unfold slice.
    replace (A ++ " ? ? ? " ++ phase p ++ " " ++ stamp ++ R)%string
      with ("" ++ (A ++ " ? ? ? ") ++ (phase p ++ " " ++ stamp ++ R))%string
      by (cbn [append]; rewrite !append_assoc; reflexivity).
    apply substring_middle; [reflexivity|].
    rewrite length_app, Hl6. reflexivity.
  - unfold slice.
    replace (A ++ " ? ? ? " ++ phase p ++ " " ++ stamp ++ R)%string
      with ((A ++ " ? ? ? ") ++ (phase p ++ " ") ++ (stamp ++ R))%string
      by (rewrite !append_assoc; reflexivity).
    apply substring_middle.
    + rewrite length_app, Hl6. reflexivity.
    + rewrite length_app. cbn [String.length]. lia.
  - replace (A ++ " ? ? ? " ++ phase p ++ " " ++ stamp ++ R)%string
      with ((A ++ " ? ? ? " ++ phase p ++ " ") ++ stamp ++ R)%string
      by (rewrite !append_assoc; reflexivity).
    apply substring_middle; [|reflexivity].
    rewrite !length_app, Hl6. cbn [String.length]. lia.
Qed.

Lemma decoded_pick_takes_one_line_witness :
  let line := "NAPO P 1 240101123015.00       17.30" in
  let p := second_pick line 4 (nth 4 default_errors (S754_zero false))
             (mk_datetime 63839795417300000) in
  exists text t,
    to_nlloc (fun _ => "0.05") p = Ok text
    /\ time p = Some t
    /\ has_char newline text = false
    /\ (String.length (station p) <= 4)%nat
    /\ String.length (ljust 6 (station p)) = 6%nat
    /\ (String.length (phase p) <= 1)%nat
    /\ slice text 0 13 = (ljust 6 (station p) ++ " ? ? ? ")%string
    /\ slice text 13 (14 + String.length (phase p))
       = (phase p ++ " ")%string
    /\ String.substring (14 + String.length (phase p))
         (String.length (strftime t)) text
       = strftime t.
Proof.
  intros line p.
  apply (decoded_pick_takes_one_line (fun _ => "0.05") line default_errors
           [first_pick line 1 (nth 1 default_errors (S754_zero false))
              (mk_datetime 63839795415000000); p] p).
  - vm_compute. reflexivity.
  - right. left. reflexivity.
  - reflexivity.
Defined.

(** The second pick of a line that ends with its seconds has no phase, and
    its time stamp starts at column 14. *)
Example second_pick_without_phase :
  option_map (map (fun p => (phase p, nlloc_text (fun _ => "0.05") p)))
    (picks_of_res
       (_parse_hypo71_pick_line "NAPO P 1 240101123015.00       17.30"
          default_errors))
  = Some [("P", "NAPO   ? ? ? P 20240101 1230 15.000000 GAU 0.05 1.0 1.0 1.0");
          ("", "NAPO   ? ? ?  20240101 1230 17.300000 GAU 0.05 1.0 1.0 1.0")].
Proof. vm_compute. reflexivity. Qed.

(** ** The columns the decoder reads *)

Lemma substring_empty (n m : nat) : String.substring n m "" = "".
Proof. destruct n, m; reflexivity. Qed.

Lemma substring_substring (s : string) :
  forall a n a' n' : nat,
  (a <= a')%nat -> (a' + n' <= a + n)%nat ->
  String.substring (a' - a) n' (String.substring a n s)
  = String.substring a' n' s.
Proof.
  induction s as [|c s IH]; intros a n a' n' Ha Hn.
  - rewrite !substring_empty. reflexivity.
  - destruct a as [|a].
    + rewrite Nat.sub_0_r. destruct n as [|n].
      * assert (a' = 0%nat) by lia. assert (n' = 0%nat) by lia. subst.
        reflexivity.
      * cbn [String.substring]. destruct a' as [|a'].
        -- destruct n' as [|n']; [reflexivity|]. cbn [String.substring].
           f_equal. apply (IH 0%nat n 0%nat n'); lia.
        -- cbn [String.substring].
           rewrite <- (Nat.sub_0_r a') at 1. apply IH; lia.
    + destruct a' as [|a']; [lia|]. cbn [String.substring Nat.sub].
      apply IH; lia.
Qed.

(** A slice inside a window of the line is a slice of the window. *)
Lemma slice_of_window (s : string) (lo hi a b : nat) :
  (lo <= a)%nat -> (a <= b)%nat -> (b <= hi)%nat ->
  slice s a b = slice (slice s lo hi) (a - lo) (b - lo).
Proof.
  intros H1 H2 H3. unfold slice.
  replace (b - lo - (a - lo))%nat with (b - a)%nat by lia.
  symmetry. apply substring_substring; lia.
Qed.

Lemma same_window_same_slice (s1 s2 : string) (lo hi a b : nat) :
  slice s1 lo hi = slice s2 lo hi ->
  (lo <= a)%nat -> (a <= b)%nat -> (b <= hi)%nat ->
  slice s1 a b = slice s2 a b.
Proof.
  intros H H1 H2 H3.
  rewrite (slice_of_window s1 lo hi a b H1 H2 H3),
    (slice_of_window s2 lo hi a b H1 H2 H3), H.
  reflexivity.
Qed.

Lemma get_of_slice (s : string) (a : nat) :
  String.get a s = match slice s a (S a) with
                   | String c _ => Some c
                   | EmptyString => None
                   end.
Proof. rewrite slice_one. destruct (String.get a s); reflexivity. Qed.

Lemma getitem_of_slice (s1 s2 : string) (i : Z) :
  0 <= i ->
  slice s1 (Z.to_nat i) (S (Z.to_nat i))
  = slice s2 (Z.to_nat i) (S (Z.to_nat i)) ->
  getitem s1 i = getitem s2 i.
Proof.
  intros Hi H. unfold getitem.
  assert (Hn : (i <? 0) = false) by (apply Z.ltb_ge; lia).
  rewrite Hn, Hn, !get_of_slice, H. reflexivity.
Qed.

Lemma decoder_test_of_window (s1 s2 : string) :
  slice s1 0 24 = slice s2 0 24 -> decoder_test s1 = decoder_test s2.
Proof.
  intros H. unfold decoder_test.
  rewrite (getitem_of_slice s1 s2 5 ltac:(lia)
             (same_window_same_slice s1 s2 0 24 5 6 H
                ltac:(lia) ltac:(lia) ltac:(lia))).
  rewrite (getitem_of_slice s1 s2 9 ltac:(lia)
             (same_window_same_slice s1 s2 0 24 9 10 H
                ltac:(lia) ltac:(lia) ltac:(lia))).
  rewrite (getitem_of_slice s1 s2 20 ltac:(lia)
             (same_window_same_slice s1 s2 0 24 20 21 H
                ltac:(lia) ltac:(lia) ltac:(lia))).
  reflexivity.
Qed.

(** X10.  Of a pick line the decoder reads the columns 0 to 23 and 31 to
    39 only: two lines that agree there (and are neither blank nor
    separators) are decoded alike, to the same picks or to the same
    exception, whatever stands in the columns 24 to 30 and from column 40
    on. *)
Theorem decoder_reads_two_windows :
  forall (line1 line2 : string) (errors : list float),
  skipped line1 = false -> skipped line2 = false ->
  slice (chomp line1) 0 24 = slice (chomp line2) 0 24 ->
  slice (chomp line1) 31 40 = slice (chomp line2) 31 40 ->
  _parse_hypo71_pick_line line1 errors = _parse_hypo71_pick_line line2 errors.
Proof.
  intros line1 line2 errors Hs1 Hs2 Hw1 Hw2.
  assert (HA : forall a b, (a <= b)%nat -> (b <= 24)%nat ->
            slice (chomp line1) a b = slice (chomp line2) a b).
  { intros a b Hab Hb.
    apply (same_window_same_slice _ _ 0 24 a b Hw1); lia. }
  assert (HB : forall a b, (31 <= a)%nat -> (a <= b)%nat -> (b <= 40)%nat ->
            slice (chomp line1) a b = slice (chomp line2) a b).
  { intros a b Ha Hab Hb.
    apply (same_window_same_slice _ _ 31 40 a b Hw2); lia. }
  unfold _parse_hypo71_pick_line.
  fold (chomp line1). fold (chomp line2).
  fold (skipped line1). fold (skipped line2). rewrite Hs1, Hs2.
  rewrite (decoder_test_of_window _ _ Hw1).
  rewrite (HA 0 4)%nat, (HA 4 5)%nat, (HA 5 6)%nat, (HA 6 7)%nat,
    (HA 7 8)%nat, (HA 9 24)%nat by lia.
  rewrite (HB 31 36)%nat, (HB 36 37)%nat, (HB 37 38)%nat, (HB 38 39)%nat,
    (HB 39 40)%nat by lia.
  reflexivity.
Qed.

Lemma decoder_reads_two_windows_witness :
  _parse_hypo71_pick_line
    "NAPO P 1 240101123015.00       17.30 S 2" default_errors
  = _parse_hypo71_pick_line
      "NAPO P 1 240101123015.00 abcde 17.30 S 2   12.5 remark"
      default_errors.
Proof.
  apply (decoder_reads_two_windows
           "NAPO P 1 240101123015.00       17.30 S 2"
           "NAPO P 1 240101123015.00 abcde 17.30 S 2   12.5 remark"
           default_errors); vm_compute; reflexivity.
Defined.

(** ** From the digits of the line to the time stamp *)














(** ** Lines that change nothing *)

(** X14.  A line that is no separator and gives no pick (a blank line, a
    time-base line with its phase blank and no second pick) changes
    nothing of what the segmenter returns: the file decodes as it does
    without the line, to the same events or to the same exception. *)
Theorem segmenter_passes_over_silent_lines :
  forall (errors : list float) (pre : list string) (line : string)
         (post : list string) (all_picks : list (list Pick))
         (picks : list Pick),
  is_separator line = false ->
  (exists r, _parse_hypo71_pick_line line errors = Ok r /\ picks_of r = []) ->
  parse_hypo71_picks_loop errors (pre ++ line :: post)%list all_picks picks
  = parse_hypo71_picks_loop errors (pre ++ post)%list all_picks picks.
Proof.
  intros errors pre line post all_picks picks Hsep (r & Hr & Hnone).
  revert all_picks picks.
  induction pre as [|l pre IH]; intros all_picks picks.
  - cbn [app]. rewrite parse_hypo71_picks_loop_cons, Hr. cbn [bind].
    rewrite Hsep, Hnone, app_nil_r. reflexivity.
  - cbn [app]. rewrite !parse_hypo71_picks_loop_cons.
    destruct (_parse_hypo71_pick_line l errors) as [rl|e]; cbn [bind];
      [apply IH | reflexivity].
Qed.

Lemma segmenter_passes_over_silent_lines_witness :
  parse_hypo71_picks_loop default_errors
    (["NAPO P 1 240101123015.00"] ++ "NAPO   1 240101123000.00" :: ["10"])%list
    [] []
  = parse_hypo71_picks_loop default_errors
      (["NAPO P 1 240101123015.00"] ++ ["10"])%list [] [].
Proof.
  apply (segmenter_passes_over_silent_lines default_errors
           ["NAPO P 1 240101123015.00"] "NAPO   1 240101123000.00" ["10"]
           [] []).
  - vm_compute. reflexivity.
  - exists (Some []). split; [vm_compute; reflexivity | reflexivity].
Defined.

(** ** What the events of a run hold *)

Lemma floats_at_length (fields : list string) (indices : list Z) :
  forall errors,
  floats_at fields indices = Ok errors ->
  List.length errors = List.length indices.
Proof.
  induction indices as [|i rest IH]; intros errors H.
  - injection H as <-. reflexivity.
  - cbn [floats_at] in H.
    apply bind_Ok_inv in H. destruct H as (f & _ & H).
    apply bind_Ok_inv in H. destruct H as (x & _ & H).
    apply bind_Ok_inv in H. destruct H as (xs & Hxs & H).
    injection H as <-. cbn [List.length]. rewrite (IH xs Hxs). reflexivity.
Qed.

Lemma parse_errors_length (option : string) (errors : list float) :
  parse_errors option = Ok errors -> List.length errors = 5%nat.
Proof.
  unfold parse_errors.
  destruct (floats_at (split_on "," option) [0; 1; 2; 3; 4]) as [l|e] eqn:Hf.
  - intros H. injection H as <-. exact (floats_at_length _ _ _ Hf).
  - destruct e; discriminate.
Qed.

(** What holds of every decoded pick holds of every pick of every event. *)
Lemma parse_hypo71_picks_loop_invariant (P : Pick -> Prop)
    (errors : list float) :
  (forall line picks p,
     _parse_hypo71_pick_line line errors = Ok (Some picks) ->
     In p picks -> P p) ->
  forall (fp : list string) (all_picks : list (list Pick))
         (picks : list Pick) (events : list (list Pick)),
  parse_hypo71_picks_loop errors fp all_picks picks = Ok events ->
  (forall ev p, In ev all_picks -> In p ev -> P p) ->
  (forall p, In p picks -> P p) ->
  forall ev p, In ev events -> In p ev -> P p.
Proof.
  intros Hdec.
  induction fp as [|line fp IH]; intros all_picks picks events Hloop Hall Hcur.
  - cbn in Hloop. injection Hloop as <-. exact Hall.
  - rewrite parse_hypo71_picks_loop_cons in Hloop.
    apply bind_Ok_inv in Hloop. destruct Hloop as (r & Hr & Hloop).
    apply (IH _ _ _ Hloop).
    + destruct (is_separator line); [|exact Hall].
      intros ev p Hev Hp. apply in_app_or in Hev.
      destruct Hev as [Hev|[<-|[]]];
        [exact (Hall ev p Hev Hp) | exact (Hcur p Hp)].
    + intros p Hp. apply in_app_or in Hp. destruct Hp as [Hp|Hp].
      * destruct (is_separator line); [contradiction | exact (Hcur p Hp)].
      * destruct r as [ps|]; [|contradiction].
        exact (Hdec line ps p Hr Hp).
Qed.

(** X11.  Whatever table of errors the option gives, every pick of every
    event of the file has a quality in [0, 4], the error that the table
    has for that quality, and a time within the range of [datetime]. *)
Theorem events_hold_sound_picks :
  forall (fs : FileSystem) (argv : Args) (errors : list float)
         (events : list (list Pick)),
  parse_errors (errors_option argv) = Ok errors ->
  parse_hypo71_picks fs (pick_file argv) errors = Ok events ->
  forall ev p, In ev events -> In p ev ->
    0 <= quality p <= 4
    /\ list_getitem errors (quality p) = Ok (error p)
    /\ exists t, time p = Some t /\ in_range t = true.
Proof.
  intros fs argv errors events Herr Hparse.
  pose proof (parse_errors_length _ _ Herr) as Hlen.
  unfold parse_hypo71_picks in Hparse.
  apply bind_Ok_inv in Hparse. destruct Hparse as (_ & _ & Hparse).
  apply bind_Ok_inv in Hparse. destruct Hparse as (text & _ & Hloop).
  apply (parse_hypo71_picks_loop_invariant
           (fun p => 0 <= quality p <= 4
                     /\ list_getitem errors (quality p) = Ok (error p)
                     /\ exists t, time p = Some t /\ in_range t = true)
           errors
           (fun line picks p Hd Hp =>
              emitted_pick_invariant line errors picks Hlen Hd p Hp)
           _ _ _ _ Hloop); intros; contradiction.
Qed.

Lemma events_hold_sound_picks_witness :
  let p := first_pick "NAPO P x 240101123015.00" 4
             (nth 4 default_errors (S754_zero false))
             (mk_datetime 63839795415000000) in
  0 <= quality p <= 4
  /\ list_getitem default_errors (quality p) = Ok (error p)
  /\ exists t, time p = Some t /\ in_range t = true.
Proof.
  intros p.
  apply (events_hold_sound_picks
           (single_file "picks.hyp"
              ("NAPO P x 240101123015.00" ++ nl ++ "10" ++ nl))
           (mk_Args "picks.hyp" None default_errors_option)
           default_errors [[p]]
           ltac:(vm_compute; reflexivity) ltac:(vm_compute; reflexivity)
           [p] p).
  - left. reflexivity.
  - left. reflexivity.
Defined.
